(** * Census-income SageMaker notebooks: a shallow embedding

    The repository is glue code around pandas, scikit-learn and the SageMaker
    SDK.  Three pieces of it carry logic of their own and are embedded here:

    - [Replay]: the background worker [invoke_endpoint] of the model-monitor
      notebook, which replays the rows of a CSV file against an endpoint;
    - [Inference]: the handler [input_fn] of the inference script;
    - [Training]: the data-preparation cells of the training notebook
      (load, clean, split, fit the preprocessor, split again, fit the model).

    Python's [str], [int] and [float] are modelled by [string], [Z] and the
    kernel's binary64 [float]; exceptions by an error monad that keeps the
    state reached when the exception was raised. *)

From Stdlib Require Import ZArith List String Ascii Bool Lia Permutation.
From Stdlib Require Import Floats.PrimFloat Numbers.Cyclic.Int63.Uint63.
From Stdlib Require Import Numbers.DecimalString.
Import ListNotations.

Open Scope string_scope.
Open Scope list_scope.
Open Scope Z_scope.

(* ===================================================================== *)
(** * Python primitives used by the notebooks *)
(* ===================================================================== *)

Module Py.

(** The exceptions that the embedded code can raise or let through.
    [EmptyDataError] and [ParserError] are pandas' ([pandas.errors]); both
    derive from [ValueError].  [OtherError] stands for any other class (the
    vendor SDK's errors among them). *)
Inductive exn : Type :=
| ZeroDivisionError
| StopIteration
| FileNotFoundError (path : string)
| ValueError (msg : string)
| OverflowError (msg : string)
| EmptyDataError (msg : string)
| ParserError (msg : string)
| OtherError (cls msg : string).

(** [isinstance(e, ValueError)]. *)
Definition is_ValueError (e : exn) : bool :=
  match e with
  | ValueError _ | EmptyDataError _ | ParserError _ => true
  | _ => false
  end.

(** Results of fallible pure calls. *)
Inductive result (A : Type) : Type :=
| Return (a : A)
| Raise (e : exn).
Arguments Return {A} a.
Arguments Raise {A} e.

Definition rbind {A B : Type} (r : result A) (k : A -> result B) : result B :=
  match r with
  | Return a => k a
  | Raise e => Raise e
  end.

(** ** Strings *)

Definition nl : ascii := "010"%char.

(** [s.split(sep)] for a one-character separator: the pieces between
    its occurrences; always at least one piece. *)
Fixpoint split_on (sep : ascii) (s : string) : list string :=
  match s with
  | EmptyString => [EmptyString]
  | String c s' =>
      if Ascii.eqb c sep then EmptyString :: split_on sep s'
      else match split_on sep s' with
           | [] => [String c EmptyString]
           | p :: ps => String c p :: ps
           end
  end.

(** [s.split('\n')]. *)
Definition split_nl (s : string) : list string := split_on nl s.

(** Iterating over a text file: the lines, each with its terminating
    newline; a last line without one is yielded as it is.  (The text is the
    one Python hands out, after universal-newline translation.) *)
Fixpoint lines (s : string) : list string :=
  match s with
  | EmptyString => []
  | String c s' =>
      if Ascii.eqb c nl then String c EmptyString :: lines s'
      else match lines s' with
           | [] => [String c EmptyString]
           | l :: ls => String c l :: ls
           end
  end.

(** [s.rstrip('\n')]: drops every trailing newline. *)
Fixpoint rstrip_nl (s : string) : string :=
  match s with
  | EmptyString => EmptyString
  | String c s' =>
      match rstrip_nl s' with
      | EmptyString => if Ascii.eqb c nl then EmptyString else String c EmptyString
      | r => String c r
      end
  end.

(** [s.replace('\n', '')]. *)
Fixpoint remove_nl (s : string) : string :=
  match s with
  | EmptyString => EmptyString
  | String c s' => if Ascii.eqb c nl then remove_nl s' else String c (remove_nl s')
  end.

(** Number of newline characters of a text. *)
Fixpoint count_nl (s : string) : nat :=
  match s with
  | EmptyString => O
  | String c s' => if Ascii.eqb c nl then S (count_nl s') else count_nl s'
  end.

(** A text is newline-terminated when it is empty or ends in a newline. *)
Fixpoint terminated (s : string) : bool :=
  match s with
  | EmptyString => true
  | String c EmptyString => Ascii.eqb c nl
  | String _ s' => terminated s'
  end.

(** [sep.join(parts)]. *)
Fixpoint join (sep : string) (parts : list string) : string :=
  match parts with
  | [] => EmptyString
  | [p] => p
  | p :: ps => String.append p (String.append sep (join sep ps))
  end.

(** [str(n)] for an integer. *)
Definition str_of_Z (n : Z) : string := NilEmpty.string_of_int (Z.to_int n).

(** ** Numbers *)

(** [float(n)] for an integer; exact below 2^53, which covers every row
    count and constant of the notebooks. *)
Definition float_of_Z (z : Z) : float :=
  match z with
  | Z0 => PrimFloat.zero
  | Zpos _ => PrimFloat.of_uint63 (Uint63.of_Z z)
  | Zneg p => PrimFloat.opp (PrimFloat.of_uint63 (Uint63.of_Z (Zpos p)))
  end.

(** Truncation of a finite float toward zero. *)
Definition trunc (f : float) : Z :=
  let (m, e) := PrimFloat.frshiftexp (PrimFloat.abs f) in
  let mant := Uint63.to_Z (PrimFloat.normfr_mantissa m) in
  let ex := Uint63.to_Z e - 2101 - 53 in
  let v := if ex <? 0 then Z.shiftr mant (- ex) else Z.shiftl mant ex in
  if PrimFloat.ltb f PrimFloat.zero then - v else v.

(** [int(f)]. *)
Definition py_int (f : float) : result Z :=
  if PrimFloat.is_nan f then Raise (ValueError "cannot convert float NaN to integer")
  else if PrimFloat.is_infinity f
       then Raise (OverflowError "cannot convert float infinity to integer")
       else Return (trunc f).

(** [math.ceil(f)] of a finite float. *)
Definition ceil (f : float) : Z :=
  let t := trunc f in
  if PrimFloat.ltb (float_of_Z t) f then t + 1 else t.

(** [a / b] on integers (true division). *)
Definition truediv (a b : Z) : result float :=
  if b =? 0 then Raise ZeroDivisionError
  else Return (PrimFloat.div (float_of_Z a) (float_of_Z b)).

(** [a % b] on integers; the sign follows the divisor, as [Z.modulo] does. *)
Definition py_mod (a b : Z) : result Z :=
  if b =? 0 then Raise ZeroDivisionError else Return (a mod b).

(** [max(x, 0)]: the first argument unless the second is greater. *)
Definition max0 (x : float) : float :=
  if PrimFloat.ltb x PrimFloat.zero then PrimFloat.zero else x.

Lemma concat_empty_cons (x : string) (xs : list string) :
  String.concat EmptyString (x :: xs) =
  String.append x (String.concat EmptyString xs).
Proof.
  destruct xs as [|y ys]; simpl; [|reflexivity].
  induction x as [|c x IH]; simpl; [reflexivity|]. now rewrite <- IH.
Qed.

End Py.

(* ===================================================================== *)
(** * The replay worker [invoke_endpoint] *)
(* ===================================================================== *)

Module Replay.
Import Py.

Section Worker.

(** The world outside the worker: the clock, the hosted endpoint and the
    file system.  [runtime_client] is [predictor.predict]; it answers or
    raises, and may change the world. *)
Variable World : Type.
Variable Response : Type.
Variable time : World -> float * World.
Variable sleep : float -> World -> World.
Variable runtime_client : string -> World -> result Response * World.
Variable fs : string -> option string.

(** What the worker has done so far: the payloads handed to the endpoint,
    the sleeps performed and the lines printed, oldest first. *)
Record state : Type := mkState {
  world : World;
  sent : list string;
  slept : list float;
  stdout : list string
}.

Inductive outcome (A : Type) : Type :=
| Ok (a : A) (s : state)
| Raised (e : exn) (s : state).
Arguments Ok {A} a s.
Arguments Raised {A} e s.

Definition M (A : Type) : Type := state -> outcome A.

Definition ret {A : Type} (a : A) : M A := fun s => Ok a s.

Definition bind {A B : Type} (m : M A) (k : A -> M B) : M B :=
  fun s => match m s with
           | Ok a s' => k a s'
           | Raised e s' => Raised e s'
           end.

Notation "x <- m ;; k" := (bind m (fun x => k))
  (at level 61, m at next level, right associativity).
Notation "m ;;; k" := (bind m (fun _ => k))
  (at level 61, right associativity).

Definition lift {A : Type} (r : result A) : M A :=
  fun s => match r with
           | Return a => Ok a s
           | Raise e => Raised e s
           end.

Definition do_time : M float :=
  fun s => let (t, w) := time (world s) in
           Ok t (mkState w (sent s) (slept s) (stdout s)).

Definition do_sleep (secs : float) : M unit :=
  fun s => Ok tt (mkState (sleep secs (world s)) (sent s) (slept s ++ [secs]) (stdout s)).

Definition do_print (line : string) : M unit :=
  fun s => Ok tt (mkState (world s) (sent s) (slept s) (stdout s ++ [line])).

(** [runtime_client(data=payload)]: the payload is on the wire before the
    answer or the exception comes back. *)
Definition call_client (payload : string) : M Response :=
  fun s => let (r, w) := runtime_client payload (world s) in
           let s' := mkState w (sent s ++ [payload]) (slept s) (stdout s) in
           match r with
           | Return a => Ok a s'
           | Raise e => Raised e s'
           end.

(** [open(file_name).read()]. *)
Definition read_file (file_name : string) : M string :=
  fun s => match fs file_name with
           | Some text => Ok text s
           | None => Raised (FileNotFoundError file_name) s
           end.

Definition ten_hours_in_sec : Z := 10 * 60 * 60.

(** [count = len(f.read().split('\n')) - 2]. *)
Definition count_of (text : string) : Z :=
  Z.of_nat (List.length (split_nl text)) - 2.

(** [int(count/ten_hours_in_sec*900)], the modulus of the progress line. *)
Definition progress_modulus (count : Z) : result Z :=
  rbind (truediv count ten_hours_in_sec)
        (fun q => py_int (PrimFloat.mul q (float_of_Z 900))).

Definition progress_line (n : Z) : string :=
  String.append "Finished sending " (String.append (str_of_Z n) " records.").

(** One turn of the [for ind, row in enumerate(f)] loop. *)
Definition iteration (count : Z) (sleep_time : float) (ind : Z) (row : string) : M unit :=
  start_time <- do_time ;;
  let payload := rstrip_nl row in
  response <- call_client payload ;;
  m <- lift (progress_modulus count) ;;
  r <- lift (py_mod (ind + 1) m) ;;
  (if r =? 0 then do_print (progress_line (ind + 1)) else ret tt) ;;;
  now <- do_time ;;
  do_sleep (max0 (PrimFloat.sub sleep_time (PrimFloat.sub now start_time))).

(** The loop over the rows left in the file iterator. *)
Fixpoint replay (count : Z) (sleep_time : float) (ind : Z) (rows : list string) : M unit :=
  match rows with
  | [] => ret tt
  | row :: rest =>
      iteration count sleep_time ind row ;;;
      replay count sleep_time (ind + 1) rest
  end.

Definition invoke_endpoint (ep_name file_name : string) : M unit :=
  pre_time <- do_time ;;
  text <- read_file file_name ;;
  let count := count_of text in
  sleep_time <- lift (truediv ten_hours_in_sec count) ;;
  text' <- read_file file_name ;;
  match lines text' with
  | [] => lift (Raise StopIteration)
  | _header :: rows =>
      replay count sleep_time 0 rows ;;;
      do_print "Done!"
  end.

(** The loop as a transition system over the rows still to be read and
    the worker's state. *)
Inductive config : Type :=
| Running (ind : Z) (remaining : list string) (s : state)
| Finished (s : state)
| Failed (e : exn) (s : state).

Definition state_of (c : config) : state :=
  match c with
  | Running _ _ s | Finished s | Failed _ s => s
  end.

Inductive step (count : Z) (sleep_time : float) : config -> config -> Prop :=
| step_next : forall ind row rest s s',
    iteration count sleep_time ind row s = Ok tt s' ->
    step count sleep_time (Running ind (row :: rest) s) (Running (ind + 1) rest s')
| step_raise : forall ind row rest s e s',
    iteration count sleep_time ind row s = Raised e s' ->
    step count sleep_time (Running ind (row :: rest) s) (Failed e s')
| step_exhausted : forall ind s,
    step count sleep_time (Running ind [] s) (Finished s).

Inductive steps (count : Z) (sleep_time : float) : config -> config -> Prop :=
| steps_refl : forall c, steps count sleep_time c c
| steps_cons : forall c1 c2 c3,
    step count sleep_time c1 c2 -> steps count sleep_time c2 c3 ->
    steps count sleep_time c1 c3.

(** The data rows of a file and the payloads they stand for. *)
Definition data_rows (text : string) : list string := tl (lines text).

Definition payloads (text : string) : list string := map rstrip_nl (data_rows text).

Definition initial (w : World) : state := mkState w [] [] [].

(** The state in which an outcome leaves the worker. *)
Definition final {A : Type} (o : outcome A) : state :=
  match o with
  | Ok _ s | Raised _ s => s
  end.

(** The state after one reading of the clock. *)
Definition after_time (s : state) : state :=
  mkState (snd (time (world s))) (sent s) (slept s) (stdout s).

(** The endpoint answers [payload] whatever state the world is in. *)
Definition answers (payload : string) : Prop :=
  forall w, exists a, fst (runtime_client payload w) = Return a.

(** The endpoint raises [e] for [row] when called from state [s] (the
    clock is read once between the top of the turn and the call). *)
Definition client_raises (row : string) (s : state) (e : exn) : Prop :=
  fst (runtime_client (rstrip_nl row) (world (after_time s))) = Raise e.

(** The worker reaches its loop: the file is there, it has a first line,
    and the sleep interval could be computed. *)
Definition enters_loop (file_name : string) (s0 : state)
    (count : Z) (sleep_time : float) (rows : list string) (s : state) : Prop :=
  exists text header,
    fs file_name = Some text /\
    lines text = header :: rows /\
    count = count_of text /\
    truediv ten_hours_in_sec count = Return sleep_time /\
    s = after_time s0.

(** ** Texts, pieces and lines *)

Lemma length_split_nl (s : string) :
  List.length (split_nl s) = S (count_nl s).
Proof.
  unfold split_nl. induction s as [|c s IH]; simpl; [reflexivity|].
  destruct (Ascii.eqb c nl); simpl.
  - now rewrite IH.
  - destruct (split_on nl s); simpl in *; [discriminate|exact IH].
Qed.

Lemma lines_nil (s : string) : lines s = [] -> s = EmptyString.
Proof.
  destruct s as [|c s]; simpl; [reflexivity|].
  destruct (Ascii.eqb c nl); [discriminate|].
  destruct (lines s); discriminate.
Qed.

Lemma terminated_cons (c : ascii) (s : string) :
  s <> EmptyString -> terminated (String c s) = terminated s.
Proof. destruct s; [congruence|reflexivity]. Qed.

Lemma length_lines (s : string) :
  List.length (lines s) = (count_nl s + if terminated s then 0 else 1)%nat.
Proof.
  induction s as [|c s IH]; [reflexivity|].
  destruct s as [|d s'].
  - simpl. destruct (Ascii.eqb c nl); reflexivity.
  - rewrite terminated_cons by discriminate.
    remember (String d s') as t.
    simpl. destruct (Ascii.eqb c nl); simpl.
    + now rewrite IH.
    + destruct (lines t) eqn:E.
      * apply lines_nil in E. subst; discriminate.
      * exact IH.
Qed.

(** [count] against the number of data rows: they agree on a
    newline-terminated file and differ by one otherwise. *)
Lemma count_of_rows (text header : string) (rows : list string) :
  lines text = header :: rows ->
  count_of text = Z.of_nat (List.length rows) - (if terminated text then 0 else 1).
Proof.
  intros H. unfold count_of. rewrite length_split_nl.
  pose proof (length_lines text) as L. rewrite H in L. simpl in L.
  destruct (terminated text); lia.
Qed.

(** ** One turn of the loop *)

Lemma iteration_sent (count : Z) (sleep_time : float) (ind : Z) (row : string) (s : state) :
  sent (final (iteration count sleep_time ind row s)) = sent s ++ [rstrip_nl row].
Proof.
  unfold iteration, bind, do_time, call_client, lift, do_sleep, do_print, ret.
  destruct (time (world s)) as [t0 w0]; simpl.
  destruct (runtime_client (rstrip_nl row) w0) as [[a|e] w1]; simpl; [|reflexivity].
  destruct (progress_modulus count) as [m|e]; simpl; [|reflexivity].
  destruct (py_mod (ind + 1) m) as [r|e]; simpl; [|reflexivity].
  destruct (r =? 0); simpl;
    destruct (time w1) as [t1 w2]; reflexivity.
Qed.

Lemma iteration_client_raise (count : Z) (sleep_time : float) (ind : Z)
    (row : string) (s : state) (e : exn) :
  client_raises row s e ->
  exists s', iteration count sleep_time ind row s = Raised e s' /\
             sent s' = sent s ++ [rstrip_nl row] /\
             slept s' = slept s /\ stdout s' = stdout s.
Proof.
  unfold client_raises, after_time, iteration, bind, do_time, call_client. simpl.
  destruct (time (world s)) as [t0 w0]; simpl.
  destruct (runtime_client (rstrip_nl row) w0) as [r w1]; simpl.
  intros ->. eexists; repeat split.
Qed.

Lemma iteration_zero_modulus (count : Z) (sleep_time : float) (ind : Z)
    (row : string) (s : state) :
  answers (rstrip_nl row) ->
  progress_modulus count = Return 0 ->
  exists s', iteration count sleep_time ind row s = Raised ZeroDivisionError s' /\
             sent s' = sent s ++ [rstrip_nl row] /\
             slept s' = slept s /\ stdout s' = stdout s.
Proof.
  intros A Hm. unfold iteration, bind, do_time, call_client, lift.
  destruct (time (world s)) as [t0 w0]; simpl.
  destruct (A w0) as [a Ha].
  destruct (runtime_client (rstrip_nl row) w0) as [r w1]; simpl in *. subst r.
  rewrite Hm. simpl. eexists; repeat split.
Qed.

Lemma iteration_ok (count : Z) (sleep_time : float) (ind : Z) (row : string)
    (s : state) (m : Z) :
  answers (rstrip_nl row) ->
  progress_modulus count = Return m -> m <> 0 ->
  exists s', iteration count sleep_time ind row s = Ok tt s'.
Proof.
  intros A Hm Hz. unfold iteration, bind, do_time, call_client, lift, do_sleep, do_print, ret.
  destruct (time (world s)) as [t0 w0]; simpl.
  destruct (A w0) as [a Ha].
  destruct (runtime_client (rstrip_nl row) w0) as [r w1]; simpl in *. subst r.
  rewrite Hm. simpl. unfold py_mod.
  destruct (m =? 0) eqn:E; [apply Z.eqb_eq in E; contradiction|]. simpl.
  destruct ((ind + 1) mod m =? 0); simpl;
    destruct (time w1) as [t1 w2]; eexists; reflexivity.
Qed.

(** The sleep of a completed turn: the interval less the time the turn
    took, and zero when the turn overran. *)
Lemma iteration_sleep (count : Z) (sleep_time : float) (ind : Z) (row : string)
    (s s' : state) :
  iteration count sleep_time ind row s = Ok tt s' ->
  exists start_time now,
    start_time = fst (time (world s)) /\
    slept s' = slept s ++
      [max0 (PrimFloat.sub sleep_time (PrimFloat.sub now start_time))].
Proof.
  unfold iteration, bind, do_time, call_client, lift, do_sleep, do_print, ret.
  destruct (time (world s)) as [t0 w0]; simpl.
  destruct (runtime_client (rstrip_nl row) w0) as [[a|e] w1]; simpl; [|discriminate].
  destruct (progress_modulus count) as [m|e]; simpl; [|discriminate].
  destruct (py_mod (ind + 1) m) as [r|e]; simpl; [|discriminate].
  destruct (r =? 0); simpl; destruct (time w1) as [t1 w2]; simpl;
    intros [= <-]; exists t0, t1; split; reflexivity.
Qed.

(** ** The loop *)

Lemma replay_sent_ok (count : Z) (sleep_time : float) (rows : list string) :
  forall ind s s',
    replay count sleep_time ind rows s = Ok tt s' ->
    sent s' = sent s ++ map rstrip_nl rows.
Proof.
  induction rows as [|row rest IH]; intros ind s s'; simpl.
  - unfold ret. intros [= <-]. now rewrite app_nil_r.
  - unfold bind.
    pose proof (iteration_sent count sleep_time ind row s) as Hs.
    destruct (iteration count sleep_time ind row s) as [[] s1|e s1]; [|discriminate].
    intros H. apply IH in H. simpl in Hs. rewrite H, Hs, <- app_assoc. reflexivity.
Qed.

Lemma replay_sent_prefix (count : Z) (sleep_time : float) (rows : list string) :
  forall ind s,
    exists k, sent (final (replay count sleep_time ind rows s)) =
              sent s ++ map rstrip_nl (firstn k rows).
Proof.
  induction rows as [|row rest IH]; intros ind s; simpl.
  - exists O. simpl. now rewrite app_nil_r.
  - unfold bind.
    pose proof (iteration_sent count sleep_time ind row s) as Hs.
    destruct (iteration count sleep_time ind row s) as [[] s1|e s1]; simpl in Hs.
    + destruct (IH (ind + 1) s1) as [k Hk]. exists (S k).
      rewrite Hk, Hs, <- app_assoc. reflexivity.
    + exists 1%nat. simpl. exact Hs.
Qed.

Lemma replay_complete (count : Z) (sleep_time : float) (m : Z) (rows : list string) :
  progress_modulus count = Return m -> m <> 0 ->
  Forall (fun row => answers (rstrip_nl row)) rows ->
  forall ind s, exists s', replay count sleep_time ind rows s = Ok tt s'.
Proof.
  intros Hm Hz HA. induction HA as [|row rest A _ IH]; intros ind s; simpl.
  - eexists; reflexivity.
  - unfold bind. destruct (iteration_ok count sleep_time ind row s m A Hm Hz) as [s1 ->].
    apply IH.
Qed.

(** The loop function and the transition system agree. *)
Lemma replay_steps_ok (count : Z) (sleep_time : float) (rows : list string) :
  forall ind s s',
    replay count sleep_time ind rows s = Ok tt s' ->
    steps count sleep_time (Running ind rows s) (Finished s').
Proof.
  induction rows as [|row rest IH]; intros ind s s'; simpl.
  - unfold ret. intros [= <-]. eapply steps_cons; [apply step_exhausted|apply steps_refl].
  - unfold bind.
    destruct (iteration count sleep_time ind row s) as [[] s1|e s1] eqn:E; [|discriminate].
    intros H. eapply steps_cons; [apply step_next; exact E|]. now apply IH.
Qed.

Lemma replay_steps_raised (count : Z) (sleep_time : float) (rows : list string) :
  forall ind s e s',
    replay count sleep_time ind rows s = Raised e s' ->
    steps count sleep_time (Running ind rows s) (Failed e s').
Proof.
  induction rows as [|row rest IH]; intros ind s e s'; simpl.
  - unfold ret. discriminate.
  - unfold bind.
    destruct (iteration count sleep_time ind row s) as [[] s1|e1 s1] eqn:E.
    + intros H. eapply steps_cons; [apply step_next; exact E|]. now apply IH.
    + intros [= <- <-]. eapply steps_cons; [apply step_raise; exact E|apply steps_refl].
Qed.

Lemma step_deterministic (count : Z) (sleep_time : float) (c c1 c2 : config) :
  step count sleep_time c c1 -> step count sleep_time c c2 -> c1 = c2.
Proof.
  intros H1 H2. inversion H1; subst; inversion H2; subst; congruence.
Qed.

(** Running the loop from a configuration reached by the transition
    system gives what running it from the start gives. *)
Lemma steps_replay (count : Z) (sleep_time : float) (c c' : config) :
  steps count sleep_time c c' ->
  forall ind rows s ind' rows' s',
    c = Running ind rows s -> c' = Running ind' rows' s' ->
    replay count sleep_time ind rows s = replay count sleep_time ind' rows' s'.
Proof.
  induction 1 as [c|c1 c2 c3 H12 H23 IH]; intros ind rows s ind' rows' s' E1 E2.
  - subst. injection E2 as <- <- <-. reflexivity.
  - subst. inversion H12; subst.
    + simpl. unfold bind.
      match goal with Hi : iteration _ _ _ _ _ = _ |- _ => rewrite Hi end.
      eapply IH; reflexivity.
    + inversion H23 as [|? ? ? Hs]; subst. inversion Hs.
    + inversion H23 as [|? ? ? Hs]; subst. inversion Hs.
Qed.

Lemma steps_running (count : Z) (sleep_time : float) (c c' : config) :
  steps count sleep_time c c' ->
  forall ind rows s ind' rows' s',
    c = Running ind rows s -> c' = Running ind' rows' s' ->
    exists done, rows = done ++ rows' /\
                 sent s' = sent s ++ map rstrip_nl done /\
                 ind' = ind + Z.of_nat (List.length done).
Proof.
  induction 1 as [c|c1 c2 c3 H12 H23 IH]; intros ind rows s ind' rows' s' E1 E2.
  - subst. injection E2 as <- <- <-. exists []. simpl.
    rewrite app_nil_r. repeat split. lia.
  - subst. inversion H12 as [i row rest s0 s1 Hi| |]; subst.
    + destruct (IH _ _ _ _ _ _ eq_refl eq_refl) as [done [-> [Hs ->]]].
      exists (row :: done). simpl. repeat split.
      * pose proof (iteration_sent count sleep_time ind row s) as Hq.
        rewrite Hi in Hq. simpl in Hq. rewrite Hs, Hq, <- app_assoc. reflexivity.
      * lia.
    + inversion H23 as [|? ? ? Hs]; subst. inversion Hs.
    + inversion H23 as [|? ? ? Hs]; subst. inversion Hs.
Qed.

(** ** The whole worker *)

Lemma invoke_endpoint_unfold (ep_name file_name text header : string)
    (rows : list string) (s0 : state) :
  fs file_name = Some text ->
  lines text = header :: rows ->
  invoke_endpoint ep_name file_name s0 =
  match truediv ten_hours_in_sec (count_of text) with
  | Raise e => Raised e (after_time s0)
  | Return sleep_time =>
      bind (replay (count_of text) sleep_time 0 rows)
           (fun _ => do_print "Done!") (after_time s0)
  end.
Proof.
  intros Hf Hl. unfold invoke_endpoint, bind, do_time, read_file, lift, after_time.
  destruct (time (world s0)) as [t0 w0]; simpl. rewrite Hf.
  destruct (truediv ten_hours_in_sec (count_of text)); [|reflexivity].
  rewrite ?Hf, Hl. reflexivity.
Qed.

Lemma invoke_endpoint_loop (ep_name file_name : string) (s0 : state)
    (count : Z) (sleep_time : float) (rows : list string) (s : state) :
  enters_loop file_name s0 count sleep_time rows s ->
  invoke_endpoint ep_name file_name s0 =
  bind (replay count sleep_time 0 rows) (fun _ => do_print "Done!") s.
Proof.
  intros (text & header & Hf & Hl & -> & Hd & ->).
  rewrite (invoke_endpoint_unfold _ _ _ _ _ _ Hf Hl), Hd. reflexivity.
Qed.

Lemma invoke_endpoint_ok_inv (ep_name file_name : string) (s0 s' : state) :
  invoke_endpoint ep_name file_name s0 = Ok tt s' ->
  exists text header rows sleep_time s1,
    enters_loop file_name s0 (count_of text) sleep_time rows (after_time s0) /\
    fs file_name = Some text /\ lines text = header :: rows /\
    replay (count_of text) sleep_time 0 rows (after_time s0) = Ok tt s1 /\
    s' = mkState (world s1) (sent s1) (slept s1) (stdout s1 ++ ["Done!"]).
Proof.
  unfold invoke_endpoint, bind, do_time, read_file, lift.
  destruct (time (world s0)) as [t0 w0] eqn:Et; simpl.
  destruct (fs file_name) as [text|] eqn:Hf; [|discriminate].
  destruct (truediv ten_hours_in_sec (count_of text)) as [st|] eqn:Hd; [|discriminate].
  destruct (lines text) as [|header rows] eqn:Hl; [discriminate|].
  assert (Ea : mkState w0 (sent s0) (slept s0) (stdout s0) = after_time s0)
    by (unfold after_time; rewrite Et; reflexivity).
  rewrite Ea.
  destruct (replay (count_of text) st 0 rows (after_time s0)) as [[] s1|] eqn:Hr;
    [|discriminate].
  unfold do_print. intros [= <-].
  exists text, header, rows, st, s1. repeat split; try assumption.
  exists text, header. repeat split; assumption.
Qed.

(** The progress modulus [int(count/36000*900)] is zero for every count
    from 1 to 39 (checked value by value on binary64). *)
Lemma progress_modulus_small (c : Z) :
  1 <= c <= 39 -> progress_modulus c = Return 0.
Proof.
  intros H.
  assert (E : forallb (fun n => match progress_modulus (Z.of_nat n) with
                                | Return 0 => true
                                | _ => false
                                end) (seq 1 39) = true)
    by (vm_compute; reflexivity).
  rewrite forallb_forall in E. specialize (E (Z.to_nat c)).
  rewrite Z2Nat.id in E by lia.
  assert (I : In (Z.to_nat c) (seq 1 39)) by (apply in_seq; lia).
  apply E in I. destruct (progress_modulus c) as [[| |]|]; congruence.
Qed.

(** On a newline-terminated file with at least one data row the interval
    is 36000 divided by the number of data rows. *)
Lemma sleep_time_terminated (text header : string) (rows : list string) :
  lines text = header :: rows ->
  terminated text = true ->
  rows <> [] ->
  truediv ten_hours_in_sec (count_of text) =
  Return (PrimFloat.div (float_of_Z 36000) (float_of_Z (Z.of_nat (List.length rows)))).
Proof.
  intros Hl Ht Hr. rewrite (count_of_rows _ _ _ Hl), Ht, Z.sub_0_r.
  unfold truediv. destruct rows as [|r rest]; [contradiction|].
  destruct (Z.of_nat (List.length (r :: rest)) =? 0) eqn:E; [|reflexivity].
  apply Z.eqb_eq in E. simpl in E. lia.
Qed.

(** When the progress modulus is not zero and the endpoint answers every
    row, the worker sends every data row, in file order, once each. *)
Lemma invoke_endpoint_all_rows (ep_name file_name text header : string)
    (rows : list string) (m : Z) (s0 : state) :
  fs file_name = Some text ->
  lines text = header :: rows ->
  count_of text <> 0 ->
  progress_modulus (count_of text) = Return m -> m <> 0 ->
  Forall (fun row => answers (rstrip_nl row)) rows ->
  exists s', invoke_endpoint ep_name file_name s0 = Ok tt s' /\
             sent s' = sent s0 ++ payloads text.
Proof.
  intros Hf Hl Hc Hm Hz HA.
  rewrite (invoke_endpoint_unfold _ _ _ _ _ _ Hf Hl).
  unfold truediv. destruct (count_of text =? 0) eqn:E;
    [apply Z.eqb_eq in E; contradiction|].
  unfold bind.
  destruct (replay_complete _ (PrimFloat.div (float_of_Z ten_hours_in_sec)
              (float_of_Z (count_of text))) _ _ Hm Hz HA 0 (after_time s0)) as [s1 Hr].
  rewrite Hr. unfold do_print. eexists; split; [reflexivity|]. simpl.
  apply replay_sent_ok in Hr. rewrite Hr. unfold payloads, data_rows. rewrite Hl.
  reflexivity.
Qed.

Lemma replay_steps_prefix (count : Z) (sleep_time : float) (done rest : list string) :
  forall ind s s1,
    replay count sleep_time ind done s = Ok tt s1 ->
    steps count sleep_time (Running ind (done ++ rest) s)
          (Running (ind + Z.of_nat (List.length done)) rest s1).
Proof.
  induction done as [|row done IH]; intros ind s s1; simpl.
  - unfold ret. intros [= <-]. rewrite Z.add_0_r. apply steps_refl.
  - unfold bind.
    destruct (iteration count sleep_time ind row s) as [[] s2|e s2] eqn:E; [|discriminate].
    intros H. eapply steps_cons; [apply step_next; exact E|].
    replace (ind + Z.pos (Pos.of_succ_nat (List.length done)))
      with (ind + 1 + Z.of_nat (List.length done)) by lia.
    now apply IH.
Qed.

(** ** Claims about the worker *)

(** C6.  When the endpoint raises for a row reached by the loop, the
    worker ends with that very exception: the failed row has been handed
    to the endpoint once (no retry), nothing after it is sent, nothing
    more is printed or slept. *)
Theorem client_exception_propagates (ep_name file_name : string) (s0 : state)
    (count : Z) (sleep_time : float) (rows : list string) (s : state)
    (ind : Z) (row : string) (rest : list string) (s1 : state) (e : exn) :
  enters_loop file_name s0 count sleep_time rows s ->
  steps count sleep_time (Running 0 rows s) (Running ind (row :: rest) s1) ->
  client_raises row s1 e ->
  exists before s',
    rows = before ++ row :: rest /\
    invoke_endpoint ep_name file_name s0 = Raised e s' /\
    sent s' = sent s0 ++ map rstrip_nl (before ++ [row]) /\
    slept s' = slept s1 /\ stdout s' = stdout s1.
Proof.
  intros He Hs Hc.
  destruct (steps_running _ _ _ _ Hs _ _ _ _ _ _ eq_refl eq_refl)
    as (before & Hrows & Hsent & _).
  destruct (iteration_client_raise count sleep_time ind row s1 e Hc)
    as (s' & Hi & Hs' & Hsl & Hout).
  exists before, s'. split; [exact Hrows|].
  rewrite (invoke_endpoint_loop _ _ _ _ _ _ _ He).
  unfold bind at 1.
  rewrite (steps_replay _ _ _ _ Hs _ _ _ _ _ _ eq_refl eq_refl).
  simpl. unfold bind at 1. rewrite Hi.
  repeat split; try assumption.
  rewrite Hs', Hsent, map_app, app_assoc. simpl.
  destruct He as (text & header & _ & _ & _ & _ & ->). reflexivity.
Qed.

(** C8, as the code has it.  A file with fewer than 40 data rows makes
    the worker raise [ZeroDivisionError], provided the file is more than a
    header line without its newline and the endpoint answers the first
    row: at [count = 0] the interval division fails before anything is
    sent; otherwise the modulus of the progress line is zero and the
    first turn fails right after its call. *)
Theorem small_file_zero_division (ep_name file_name text header : string)
    (rows : list string) (s0 : state) :
  fs file_name = Some text ->
  lines text = header :: rows ->
  (List.length rows < 40)%nat ->
  (rows = [] -> terminated text = true) ->
  Forall (fun row => answers (rstrip_nl row)) (firstn 1 rows) ->
  exists s',
    invoke_endpoint ep_name file_name s0 = Raised ZeroDivisionError s' /\
    sent s' = sent s0 ++
              (if count_of text =? 0 then [] else firstn 1 (payloads text)) /\
    slept s' = slept s0 /\ stdout s' = stdout s0.
Proof.
  intros Hf Hl Hlen Hhdr HA.
  rewrite (invoke_endpoint_unfold _ _ _ _ _ _ Hf Hl).
  pose proof (count_of_rows _ _ _ Hl) as Hc.
  unfold truediv. destruct (count_of text =? 0) eqn:E.
  - eexists. split; [reflexivity|]. simpl. rewrite app_nil_r. repeat split.
  - apply Z.eqb_neq in E.
    assert (Hrange : 1 <= count_of text <= 39).
    { destruct rows as [|r rest].
      - rewrite (Hhdr eq_refl) in Hc. simpl in Hc. lia.
      - change (List.length (r :: rest)) with (S (List.length rest)) in *.
        destruct (terminated text); lia. }
    destruct rows as [|r rest].
    { rewrite (Hhdr eq_refl) in Hc. simpl in Hc. lia. }
    simpl in HA. inversion HA as [|? ? Ar _]; subst.
    cbn [replay]. unfold bind.
    destruct (iteration_zero_modulus (count_of text)
                (PrimFloat.div (float_of_Z ten_hours_in_sec) (float_of_Z (count_of text)))
                0 r (after_time s0) Ar (progress_modulus_small _ Hrange))
      as (s' & Hi & Hs & Hsl & Hout).
    rewrite Hi. exists s'. split; [reflexivity|].
    unfold payloads, data_rows. rewrite Hl. simpl.
    repeat split; assumption.
Qed.

End Worker.

Arguments Ok {World A} a s.
Arguments Raised {World A} e s.
Arguments mkState {World} world sent slept stdout.
Arguments world {World} s.
Arguments sent {World} s.
Arguments slept {World} s.
Arguments stdout {World} s.
Arguments initial {World} w.
Arguments Running {World} ind remaining s.
Arguments Finished {World} s.
Arguments Failed {World} e s.
Arguments state_of {World} c.

(** ** A concrete world, for running the worker

    The clock counts whole seconds and an endpoint call takes one second;
    the endpoint echoes its payload and rejects the payload [boom]; the
    file system holds one file, [data/infer.csv]. *)

Definition demo_time (w : Z) : float * Z := (float_of_Z w, w).

Definition demo_sleep (secs : float) (w : Z) : Z := w + trunc secs.

Definition demo_client (payload : string) (w : Z) : result string * Z :=
  (if String.eqb payload "boom"
   then Raise (OtherError "ModelError" "rejected")
   else Return payload,
   w + 1).

Definition demo_fs (text : string) (name : string) : option string :=
  if String.eqb name "data/infer.csv" then Some text else None.

Definition run_demo (text : string) : outcome Z unit :=
  invoke_endpoint Z string demo_time demo_sleep demo_client (demo_fs text)
    "endpoint" "data/infer.csv" (initial 0).

Definition line (s : string) : string := String.append s (String nl EmptyString).

Definition unlines (ls : list string) : string :=
  fold_right (fun l acc => String.append (line l) acc) EmptyString ls.

(** A header and two rows, newline-terminated. *)
Definition small_file : string := unlines ["h"; "r1"; "r2"].

(** A header line alone, without its newline. *)
Definition header_only : string := "h".

(** A header and 41 rows, the last one without its newline. *)
Definition unterminated_file : string :=
  String.append (unlines ("h" :: repeat "r" 40)) "r".

(** A header, 40 good rows, a row the endpoint rejects, and one more. *)
Definition rejected_file : string :=
  unlines ("h" :: repeat "r" 40 ++ ["boom"; "late"]).

Definition demo_invoke (text : string) : string -> string -> M Z unit :=
  invoke_endpoint Z string demo_time demo_sleep demo_client (demo_fs text).

Definition good_rows : list string := map line (repeat "r" 40).

Definition rejected_rows : list string := good_rows ++ [line "boom"; line "late"].

(** The interval of [rejected_file] (42 data rows) and the state its
    worker is in when the forty good rows are through. *)
Definition rejected_sleep_time : float :=
  PrimFloat.div (float_of_Z ten_hours_in_sec) (float_of_Z 42).

Definition rejected_state : state Z :=
  final Z (replay Z string demo_time demo_sleep demo_client 42 rejected_sleep_time
             0 good_rows (after_time Z demo_time (initial 0))).

(** C1, at a file of a header and two rows, with an endpoint that answers
    both: the worker hands over the first row and then fails on the
    modulus of the progress line; the second row is never sent. *)
Theorem small_file_stops_after_first_row :
  payloads small_file = ["r1"; "r2"] /\
  run_demo small_file = Raised ZeroDivisionError (mkState 1 ["r1"] [] []).
Proof. split; vm_compute; reflexivity. Qed.

(** C2, at a file of a header and 41 rows whose last line has no newline:
    [count] is 40, the interval is 900 seconds and not 36000/41, and the
    replay is scheduled over 36900 seconds. *)
Theorem unterminated_file_interval :
  List.length (data_rows unterminated_file) = 41%nat /\
  count_of unterminated_file = 40 /\
  truediv ten_hours_in_sec (count_of unterminated_file) = Return 900%float /\
  rbind (truediv ten_hours_in_sec 41) (fun x => Return (PrimFloat.eqb x 900)) =
    Return false /\
  world (final Z (run_demo unterminated_file)) = 36900.
Proof. repeat split; vm_compute; reflexivity. Qed.

(** C8 fails on a header line without its newline: no data row, yet the
    worker returns normally, having sent nothing. *)
Lemma header_only_returns :
  List.length (data_rows header_only) = 0%nat /\
  run_demo header_only = Ok tt (mkState 0 [] [] ["Done!"]).
Proof. split; vm_compute; reflexivity. Qed.


(** The two-row file: the first row goes out, then the modulus fails. *)
Lemma small_file_zero_division_witness :
  exists s',
    demo_invoke small_file "endpoint" "data/infer.csv" (initial 0) =
      Raised ZeroDivisionError s' /\
    sent s' = sent (initial 0) ++
              (if count_of small_file =? 0 then [] else firstn 1 (payloads small_file)) /\
    slept s' = slept (initial 0) /\ stdout s' = stdout (initial 0).
Proof.
  apply (small_file_zero_division Z string demo_time demo_sleep demo_client
           (demo_fs small_file) "endpoint" "data/infer.csv" small_file
           (line "h") [line "r1"; line "r2"] (initial 0)).
  - reflexivity.
  - vm_compute; reflexivity.
  - simpl; lia.
  - discriminate.
  - constructor; [|constructor]. intros w. eexists. reflexivity.
Defined.

(** The endpoint rejects row 41 of [rejected_file]: the worker ends with
    that error and row 42 stays unsent. *)
Lemma client_exception_propagates_witness :
  exists before s',
    rejected_rows = before ++ line "boom" :: [line "late"] /\
    demo_invoke rejected_file "endpoint" "data/infer.csv" (initial 0) =
      Raised (OtherError "ModelError" "rejected") s' /\
    sent s' = sent (initial 0) ++ map rstrip_nl (before ++ [line "boom"]) /\
    slept s' = slept rejected_state /\ stdout s' = stdout rejected_state.
Proof.
  apply (client_exception_propagates Z string demo_time demo_sleep demo_client
           (demo_fs rejected_file) "endpoint" "data/infer.csv" (initial 0)
           42 rejected_sleep_time rejected_rows (after_time Z demo_time (initial 0))
           40 (line "boom") [line "late"] rejected_state
           (OtherError "ModelError" "rejected")).
  - exists rejected_file, (line "h").
    split; [reflexivity|]. split; [vm_compute; reflexivity|].
    split; [vm_compute; reflexivity|]. split; reflexivity.
  - exact (replay_steps_prefix Z string demo_time demo_sleep demo_client
             42 rejected_sleep_time good_rows [line "boom"; line "late"] 0
             (after_time Z demo_time (initial 0)) rejected_state
             ltac:(vm_compute; reflexivity)).
  - vm_compute. reflexivity.
Defined.

(* --------------------------------------------------------------------- *)
(** ** More about the worker: what it sends, prints and sleeps *)
(* --------------------------------------------------------------------- *)

(** The progress modulus is defined and not zero on a range of counts,
    checked count by count. *)
Fixpoint modulus_nonzero_from (fuel : nat) (c : Z) : bool :=
  match fuel with
  | O => true
  | S fuel' =>
      match progress_modulus c with
      | Return m => negb (m =? 0)
      | Raise _ => false
      end && modulus_nonzero_from fuel' (c + 1)
  end.

(** The progress lines of a completed replay of [n] rows: one for each
    multiple of the modulus from 1 to [n], in increasing order. *)
Definition progress_report (count : Z) (n : nat) : list string :=
  match progress_modulus count with
  | Return m =>
      map progress_line (filter (fun k => k mod m =? 0) (map Z.of_nat (seq 1 n)))
  | Raise _ => []
  end.

Lemma modulus_nonzero_from_spec (fuel : nat) :
  forall c0, modulus_nonzero_from fuel c0 = true ->
  forall c, c0 <= c < c0 + Z.of_nat fuel ->
  exists m, progress_modulus c = Return m /\ m <> 0.
Proof.
  induction fuel as [|fuel IH]; intros c0 H c Hc; [lia|].
  cbn [modulus_nonzero_from] in H. apply andb_true_iff in H. destruct H as [H1 H2].
  destruct (Z.eq_dec c c0) as [->|Hne].
  - destruct (progress_modulus c0) as [m|e]; [|discriminate].
    exists m. split; [reflexivity|]. apply negb_true_iff, Z.eqb_neq in H1. exact H1.
  - apply (IH (c0 + 1) H2). lia.
Qed.

Lemma progress_modulus_large (c : Z) :
  40 <= c <= 100000 -> exists m, progress_modulus c = Return m /\ m <> 0.
Proof.
  intros H.
  assert (E : modulus_nonzero_from (Z.to_nat 99961) 40 = true)
    by (vm_compute; reflexivity).
  apply (modulus_nonzero_from_spec _ _ E). lia.
Qed.

Lemma max0_not_negative (x : float) : PrimFloat.ltb (max0 x) PrimFloat.zero = false.
Proof.
  unfold max0. destruct (PrimFloat.ltb x PrimFloat.zero) eqn:E; [reflexivity|exact E].
Qed.

Lemma rstrip_nl_clean (b : string) : count_nl b = 0%nat -> rstrip_nl b = b.
Proof.
  induction b as [|c b IH]; simpl; [reflexivity|].
  destruct (Ascii.eqb c nl); [discriminate|].
  intros H. rewrite (IH H). destruct b; reflexivity.
Qed.

Lemma rstrip_nl_line (b : string) :
  count_nl b = 0%nat -> rstrip_nl (String.append b (String nl EmptyString)) = b.
Proof.
  induction b as [|c b IH]; simpl; [reflexivity|].
  destruct (Ascii.eqb c nl) eqn:E; [discriminate|].
  intros H. rewrite (IH H). destruct b; reflexivity.
Qed.

(** A line handed out by the file iterator: a newline-free body, followed
    by one newline unless it is a last line without one. *)
Definition line_shape (l : string) : Prop :=
  exists body, count_nl body = 0%nat /\
               (l = String.append body (String nl EmptyString) \/ l = body).

Lemma lines_shape (text : string) : Forall line_shape (lines text).
Proof.
  induction text as [|c text IH]; simpl; [constructor|].
  destruct (Ascii.eqb c nl) eqn:E.
  - apply Ascii.eqb_eq in E. subst c. constructor; [|exact IH].
    exists EmptyString. split; [reflexivity|]. now left.
  - destruct (lines text) as [|l ls].
    + constructor; [|constructor]. exists (String c EmptyString).
      split; [simpl; now rewrite E|]. now right.
    + inversion IH as [|? ? (body & Hb & Hl) Hls]; subst. constructor; [|exact Hls].
      exists (String c body). split; [simpl; now rewrite E|].
      destruct Hl as [->| ->]; [now left|now right].
Qed.

Section WorkerFacts.

Variable World : Type.
Variable Response : Type.
Variable time : World -> float * World.
Variable sleep : float -> World -> World.
Variable runtime_client : string -> World -> result Response * World.
Variable fs : string -> option string.

Local Abbreviation invoke := (invoke_endpoint World Response time sleep runtime_client fs).
Local Abbreviation loop := (replay World Response time sleep runtime_client).
Local Abbreviation turn := (iteration World Response time sleep runtime_client).
Local Abbreviation tick := (after_time World time).
Local Abbreviation moves := (step World Response time sleep runtime_client).
Local Abbreviation reaches := (steps World Response time sleep runtime_client).

(** What a turn adds to the sleeps and to the output, however it ends. *)
Lemma iteration_effects (count : Z) (sleep_time : float) (ind : Z) (row : string)
    (s : state World) :
  exists naps,
    slept (final World (turn count sleep_time ind row s)) = slept s ++ naps /\
    Forall (fun secs => PrimFloat.ltb secs PrimFloat.zero = false) naps /\
    (List.length naps <= 1)%nat.
Proof.
  unfold iteration, bind, do_time, call_client, lift, do_sleep, do_print, ret.
  destruct (time (world s)) as [t0 w0]; simpl.
  destruct (runtime_client (rstrip_nl row) w0) as [[a|e] w1]; simpl;
    [|exists []; rewrite app_nil_r; split; [reflexivity|split; [constructor|simpl; lia]]].
  destruct (progress_modulus count) as [m|e]; simpl;
    [|exists []; rewrite app_nil_r; split; [reflexivity|split; [constructor|simpl; lia]]].
  destruct (py_mod (ind + 1) m) as [r|e]; simpl;
    [|exists []; rewrite app_nil_r; split; [reflexivity|split; [constructor|simpl; lia]]].
  destruct (r =? 0); simpl; destruct (time w1) as [t1 w2]; simpl;
    (eexists; split; [reflexivity|]; split;
     [constructor; [apply max0_not_negative|constructor]|simpl; lia]).
Qed.

Lemma replay_effects (count : Z) (sleep_time : float) (rows : list string) :
  forall ind s,
  exists naps,
    slept (final World (loop count sleep_time ind rows s)) = slept s ++ naps /\
    Forall (fun secs => PrimFloat.ltb secs PrimFloat.zero = false) naps /\
    (List.length naps <= List.length rows)%nat.
Proof.
  induction rows as [|row rest IH]; intros ind s; simpl.
  - exists []. rewrite app_nil_r. split; [reflexivity|split; [constructor|simpl; lia]].
  - unfold bind.
    destruct (iteration_effects count sleep_time ind row s) as (n1 & H1 & F1 & L1).
    destruct (turn count sleep_time ind row s) as [[] s1|e s1]; simpl in H1.
    + destruct (IH (ind + 1) s1) as (n2 & H2 & F2 & L2).
      exists (n1 ++ n2). rewrite H2, H1, app_assoc. repeat split.
      * apply Forall_app. split; assumption.
      * rewrite length_app. simpl. lia.
    + exists n1. simpl. repeat split; try assumption. simpl. lia.
Qed.

(** What a completed turn has printed and slept. *)
Lemma iteration_ok_effects (count : Z) (sleep_time : float) (ind : Z) (row : string)
    (s s' : state World) :
  turn count sleep_time ind row s = Ok tt s' ->
  exists m nap,
    progress_modulus count = Return m /\ m <> 0 /\
    stdout s' = stdout s ++
                (if (ind + 1) mod m =? 0 then [progress_line (ind + 1)] else []) /\
    slept s' = slept s ++ [nap].
Proof.
  unfold iteration, bind, do_time, call_client, lift, do_sleep, do_print, ret.
  destruct (time (world s)) as [t0 w0]; simpl.
  destruct (runtime_client (rstrip_nl row) w0) as [[a|e] w1]; simpl; [|discriminate].
  destruct (progress_modulus count) as [m|e]; simpl; [|discriminate].
  unfold py_mod. destruct (m =? 0) eqn:Em; simpl; [discriminate|].
  apply Z.eqb_neq in Em.
  destruct ((ind + 1) mod m =? 0) eqn:Er; simpl; destruct (time w1) as [t1 w2]; simpl;
    intros [= <-]; simpl; exists m; eexists; rewrite Er;
    repeat split; try assumption; rewrite ?app_nil_r; reflexivity.
Qed.

Lemma replay_ok_effects (count : Z) (sleep_time : float) (m : Z) (rows : list string) :
  progress_modulus count = Return m ->
  forall ind s s',
    loop count sleep_time ind rows s = Ok tt s' ->
    stdout s' = stdout s ++
      map progress_line
          (filter (fun k => k mod m =? 0)
                  (map (fun i => ind + Z.of_nat i) (seq 1 (List.length rows)))) /\
    List.length (slept s') = (List.length (slept s) + List.length rows)%nat.
Proof.
  intros Hm. induction rows as [|row rest IH]; intros ind s s'; simpl.
  - unfold ret. intros [= <-]. rewrite app_nil_r. split; [reflexivity|lia].
  - unfold bind.
    destruct (turn count sleep_time ind row s) as [[] s1|e s1] eqn:E; [|discriminate].
    intros H. apply iteration_ok_effects in E.
    destruct E as (m' & nap & Hm' & Hz & Hout & Hsl).
    rewrite Hm in Hm'. injection Hm' as <-.
    apply IH in H. destruct H as [Ho Hs]. split.
    + rewrite Ho, Hout, <- app_assoc. f_equal.
      assert (Hext : map (fun i => ind + Z.of_nat i) (seq 2 (List.length rest)) =
                     map (fun i => ind + 1 + Z.of_nat i) (seq 1 (List.length rest))).
      { rewrite <- (seq_shift (List.length rest) 1), map_map.
        apply map_ext. intros i. lia. }
      rewrite Hext. destruct ((ind + 1) mod m =? 0); reflexivity.
    + rewrite Hs, Hsl, length_app. simpl. lia.
Qed.

(** ** The loop and its transition system

    A run of the transition system that ends, ends as the loop function
    does. *)
Lemma steps_outcome (count : Z) (sleep_time : float) (c c' : config World) :
  reaches count sleep_time c c' ->
  forall ind rows s,
    c = Running ind rows s ->
    (forall s', c' = Finished s' -> loop count sleep_time ind rows s = Ok tt s') /\
    (forall e s', c' = Failed e s' -> loop count sleep_time ind rows s = Raised e s').
Proof.
  induction 1 as [c|c1 c2 c3 H12 H23 IH]; intros ind rows s E.
  - subst. split; intros; discriminate.
  - subst. inversion H12 as [i row rest s0 s1 Hi|i row rest s0 e1 s1 Hi|i s0]; subst.
    + cbn [replay]. unfold bind. rewrite Hi. apply IH. reflexivity.
    + cbn [replay]. unfold bind. rewrite Hi.
      inversion H23 as [|? ? ? Hs]; subst; [|inversion Hs].
      split; [discriminate|]. intros e s' [= <- <-]. reflexivity.
    + cbn [replay]. unfold ret.
      inversion H23 as [|? ? ? Hs]; subst; [|inversion Hs].
      split; [|discriminate]. intros s' [= <-]. reflexivity.
Qed.

(** A loop that ends with an exception has gone through the rows before
    some row, and the turn of that row raised it. *)
Lemma replay_raised_turn (count : Z) (sleep_time : float) (rows : list string) :
  forall ind s e s',
    loop count sleep_time ind rows s = Raised e s' ->
    exists done row rest s1,
      rows = done ++ row :: rest /\
      reaches count sleep_time (Running ind rows s)
              (Running (ind + Z.of_nat (List.length done)) (row :: rest) s1) /\
      turn count sleep_time (ind + Z.of_nat (List.length done)) row s1 = Raised e s' /\
      sent s' = sent s ++ map rstrip_nl (done ++ [row]).
Proof.
  induction rows as [|row rest IH]; intros ind s e s'; cbn [replay].
  - unfold ret. discriminate.
  - unfold bind.
    pose proof (iteration_sent World Response time sleep runtime_client
                  count sleep_time ind row s) as Hq.
    destruct (turn count sleep_time ind row s) as [[] s1|e1 s1] eqn:E; simpl in Hq.
    + intros H. apply IH in H.
      destruct H as (done & row' & rest' & s2 & -> & Hst & Ht & Hs).
      exists (row :: done), row', rest', s2.
      change (List.length (row :: done)) with (S (List.length done)).
      replace (ind + Z.of_nat (S (List.length done)))
        with (ind + 1 + Z.of_nat (List.length done)) by lia.
      split; [reflexivity|].
      split; [eapply steps_cons; [apply step_next; exact E|exact Hst]|].
      split; [exact Ht|].
      rewrite Hs, Hq, <- app_assoc. reflexivity.
    + intros [= <- <-]. exists [], row, rest, s.
      cbn [List.length Z.of_nat]. rewrite Z.add_0_r.
      split; [reflexivity|]. split; [apply steps_refl|].
      split; [exact E|exact Hq].
Qed.

(** A worker that ends with an exception has either sent nothing, or
    raised it in the turn of a data row, the last row it has sent. *)
Lemma invoke_raised_turn (ep_name file_name : string) (s0 : state World)
    (e : exn) (s' : state World) :
  invoke ep_name file_name s0 = Raised e s' ->
  sent s' = sent s0 \/
  exists text header done row rest sleep_time s1,
    fs file_name = Some text /\
    lines text = header :: done ++ row :: rest /\
    turn (count_of text) sleep_time (Z.of_nat (List.length done)) row s1 = Raised e s' /\
    sent s' = sent s0 ++ map rstrip_nl (done ++ [row]).
Proof.
  intros H.
  destruct (fs file_name) as [text|] eqn:Hf.
  - destruct (lines text) as [|header rows] eqn:Hl.
    + left. unfold invoke_endpoint, bind, do_time, read_file, lift in H.
      destruct (time (world s0)) as [t0 w0]; simpl in H. rewrite Hf in H.
      destruct (truediv ten_hours_in_sec (count_of text));
        [rewrite ?Hf, Hl in H|]; injection H as _ <-; reflexivity.
    + rewrite (invoke_endpoint_unfold _ _ _ _ _ _ _ _ _ _ _ _ Hf Hl) in H.
      destruct (truediv ten_hours_in_sec (count_of text)) as [st|e1];
        [|left; injection H as _ <-; reflexivity].
      unfold bind in H.
      destruct (loop (count_of text) st 0 rows (tick s0)) as [[] s1|e1 s1] eqn:Hr;
        [discriminate|].
      injection H as <- <-. right.
      apply replay_raised_turn in Hr.
      destruct Hr as (done & row & rest & s2 & -> & _ & Ht & Hs).
      exists text, header, done, row, rest, st, s2.
      repeat split; assumption.
  - left. unfold invoke_endpoint, bind, do_time, read_file, lift in H.
    destruct (time (world s0)) as [t0 w0]; simpl in H. rewrite Hf in H.
    injection H as _ <-. reflexivity.
Qed.


(** X1.  However the worker ends, what it has handed to the endpoint is
    a prefix of the file's payloads: the header is never sent, no row is
    sent out of order, none twice, none skipped before a later one. *)
Theorem sent_is_prefix (ep_name file_name : string) (s0 : state World) :
  exists k,
    sent (final World (invoke ep_name file_name s0)) =
    sent s0 ++ firstn k (match fs file_name with
                         | Some text => payloads text
                         | None => []
                         end).
Proof.
  unfold invoke_endpoint, bind, do_time, read_file, lift.
  destruct (time (world s0)) as [t0 w0]; simpl.
  destruct (fs file_name) as [text|];
    [|exists O; simpl; now rewrite app_nil_r].
  destruct (truediv ten_hours_in_sec (count_of text)) as [st|e];
    [|exists O; simpl; now rewrite app_nil_r].
  unfold payloads, data_rows.
  destruct (lines text) as [|header rows];
    [exists O; simpl; now rewrite app_nil_r|].
  simpl tl.
  destruct (replay_sent_prefix World Response time sleep runtime_client
              (count_of text) st rows 0 (mkState w0 (sent s0) (slept s0) (stdout s0)))
    as [k Hk].
  exists k. rewrite firstn_map.
  destruct (loop (count_of text) st 0 rows (mkState w0 (sent s0) (slept s0) (stdout s0)))
    as [[] s1|e s1]; simpl in *; exact Hk.
Qed.

(** X2.  A missing file ends the worker with [FileNotFoundError] and an
    empty file with [StopIteration] (the header cannot be skipped); in
    both cases only the clock has been read: nothing is sent, slept or
    printed. *)
Theorem no_file_no_traffic (ep_name file_name : string) (s0 : state World) :
  (fs file_name = None ->
     invoke ep_name file_name s0 = Raised (FileNotFoundError file_name) (tick s0)) /\
  (fs file_name = Some EmptyString ->
     invoke ep_name file_name s0 = Raised StopIteration (tick s0)) /\
  sent (tick s0) = sent s0 /\ slept (tick s0) = slept s0 /\ stdout (tick s0) = stdout s0.
Proof.
  unfold invoke_endpoint, bind, do_time, read_file, lift, after_time.
  destruct (time (world s0)) as [t0 w0]; simpl.
  repeat split; intros H; rewrite H; reflexivity.
Qed.

(** X3.  Every sleep the worker performs is for a duration that is not
    negative, and it sleeps at most once per data row. *)
Theorem sleeps_not_negative (ep_name file_name : string) (s0 : state World) :
  exists naps,
    slept (final World (invoke ep_name file_name s0)) = slept s0 ++ naps /\
    Forall (fun secs => PrimFloat.ltb secs PrimFloat.zero = false) naps /\
    (List.length naps <=
     List.length (match fs file_name with
                  | Some text => data_rows text
                  | None => []
                  end))%nat.
Proof.
  unfold invoke_endpoint, bind, do_time, read_file, lift.
  destruct (time (world s0)) as [t0 w0]; simpl.
  destruct (fs file_name) as [text|];
    [|exists []; simpl; rewrite app_nil_r; split; [reflexivity|split; [constructor|lia]]].
  destruct (truediv ten_hours_in_sec (count_of text)) as [st|e];
    [|exists []; simpl; rewrite app_nil_r; split; [reflexivity|split; [constructor|lia]]].
  unfold data_rows.
  destruct (lines text) as [|header rows];
    [exists []; simpl; rewrite app_nil_r; split; [reflexivity|split; [constructor|lia]]|].
  simpl tl.
  destruct (replay_effects (count_of text) st rows 0
              (mkState w0 (sent s0) (slept s0) (stdout s0))) as (naps & Hn & Hf & Hl).
  exists naps.
  destruct (loop (count_of text) st 0 rows (mkState w0 (sent s0) (slept s0) (stdout s0)))
    as [[] s1|e s1]; simpl in *; repeat split; assumption.
Qed.

(** X4.  A worker that returns has slept once per data row and has
    printed, in this order, one progress line for each multiple of the
    progress modulus among the row numbers 1 to n, and then [Done!]. *)
Theorem completed_run_report (ep_name file_name : string) (s0 s' : state World) :
  invoke ep_name file_name s0 = Ok tt s' ->
  exists text,
    fs file_name = Some text /\
    stdout s' = stdout s0 ++
                progress_report (count_of text) (List.length (data_rows text)) ++
                ["Done!"] /\
    List.length (slept s') =
    (List.length (slept s0) + List.length (data_rows text))%nat.
Proof.
  intros H.
  apply (invoke_endpoint_ok_inv World Response time sleep runtime_client fs) in H.
  destruct H as (text & header & rows & st & s1 & _ & Hf & Hl & Hr & ->).
  exists text. split; [exact Hf|]. unfold data_rows. rewrite Hl. simpl tl. simpl stdout.
  simpl slept. unfold progress_report.
  destruct rows as [|row rest].
  - simpl in Hr. unfold ret in Hr. injection Hr as <-. simpl.
    split; [|lia]. destruct (progress_modulus (count_of text)); reflexivity.
  - assert (Hm : exists m, progress_modulus (count_of text) = Return m).
    { simpl in Hr. unfold bind in Hr.
      destruct (turn (count_of text) st 0 row (tick s0)) as [[] s2|e s2] eqn:E;
        [|discriminate].
      apply iteration_ok_effects in E. destruct E as (m & nap & Hm & _).
      exists m. exact Hm. }
    destruct Hm as [m Hm].
    destruct (replay_ok_effects _ st m (row :: rest) Hm 0 (tick s0) s1 Hr) as [Ho Hs].
    rewrite Hm. split.
    + rewrite Ho, <- app_assoc. reflexivity.
    + exact Hs.
Qed.

(** X5.  When [count] lies between 40 and 100000 and the endpoint
    answers every row, the worker returns and has sent every data row, in
    file order, once each. *)
Theorem long_file_replayed (ep_name file_name text header : string)
    (rows : list string) (s0 : state World) :
  fs file_name = Some text ->
  lines text = header :: rows ->
  40 <= count_of text <= 100000 ->
  Forall (fun row => answers World Response runtime_client (rstrip_nl row)) rows ->
  exists s', invoke ep_name file_name s0 = Ok tt s' /\
             sent s' = sent s0 ++ payloads text.
Proof.
  intros Hf Hl Hc HA.
  destruct (progress_modulus_large _ Hc) as (m & Hm & Hz).
  apply (invoke_endpoint_all_rows World Response time sleep runtime_client fs
           ep_name file_name text header rows m s0); try assumption. lia.
Qed.

End WorkerFacts.

(** X6.  [count] is the number of data rows exactly when the text ends in
    a newline (otherwise it is one less). *)
Theorem count_is_row_count_iff_terminated (text header : string) (rows : list string) :
  lines text = header :: rows ->
  (count_of text = Z.of_nat (List.length rows) <-> terminated text = true).
Proof.
  intros H. rewrite (count_of_rows _ _ _ H).
  destruct (terminated text); split; intros; try reflexivity; try discriminate; lia.
Qed.

(** X7.  Every line of the file is a newline-free text followed by at
    most one newline, so [rstrip] takes off exactly the terminator:
    no payload holds a newline. *)
Theorem payloads_are_single_lines (text : string) :
  Forall (fun row =>
            count_nl (rstrip_nl row) = 0%nat /\
            (row = String.append (rstrip_nl row) (String nl EmptyString) \/
             row = rstrip_nl row))
         (lines text) /\
  Forall (fun payload => count_nl payload = 0%nat) (payloads text).
Proof.
  assert (H : Forall (fun row =>
            count_nl (rstrip_nl row) = 0%nat /\
            (row = String.append (rstrip_nl row) (String nl EmptyString) \/
             row = rstrip_nl row)) (lines text)).
  { eapply Forall_impl; [|apply lines_shape].
    intros l (body & Hb & [->| ->]).
    - rewrite (rstrip_nl_line _ Hb). split; [exact Hb|now left].
    - rewrite (rstrip_nl_clean _ Hb). split; [exact Hb|now right]. }
  split; [exact H|].
  unfold payloads, data_rows. rewrite Forall_map.
  destruct (lines text) as [|header rows]; [constructor|].
  inversion H as [|? ? _ Hrows]; subst. simpl.
  eapply Forall_impl; [|exact Hrows]. intros row [Hc _]. exact Hc.
Qed.

(** A header and forty rows, newline-terminated, and the state its worker
    ends in. *)
Definition forty_file : string := unlines ("h" :: repeat "r" 40).

Definition forty_state : state Z := final Z (run_demo forty_file).

(** The forty-row file: forty sleeps, forty progress lines, [Done!]. *)
Lemma completed_run_report_witness :
  exists text,
    demo_fs forty_file "data/infer.csv" = Some text /\
    stdout forty_state = stdout (initial 0) ++
                progress_report (count_of text) (List.length (data_rows text)) ++
                ["Done!"] /\
    List.length (slept forty_state) =
    (List.length (slept (initial 0)) + List.length (data_rows text))%nat.
Proof.
  apply (completed_run_report Z string demo_time demo_sleep demo_client
           (demo_fs forty_file) "endpoint" "data/infer.csv" (initial 0) forty_state).
  vm_compute. reflexivity.
Defined.

(** The forty-row file is replayed in full. *)
Lemma long_file_replayed_witness :
  exists s', demo_invoke forty_file "endpoint" "data/infer.csv" (initial 0) = Ok tt s' /\
             sent s' = sent (initial 0) ++ payloads forty_file.
Proof.
  apply (long_file_replayed Z string demo_time demo_sleep demo_client
           (demo_fs forty_file) "endpoint" "data/infer.csv" forty_file
           (line "h") good_rows (initial 0)).
  - reflexivity.
  - vm_compute; reflexivity.
  - vm_compute. split; discriminate.
  - unfold good_rows. rewrite Forall_map. apply Forall_forall.
    intros r Hr. apply repeat_spec in Hr. subst r.
    intros w. eexists. reflexivity.
Defined.

(** [small_file] ends in a newline and its count is its two rows. *)
Lemma count_is_row_count_iff_terminated_witness :
  count_of small_file = Z.of_nat (List.length [line "r1"; line "r2"]) <->
  terminated small_file = true.
Proof.
  apply (count_is_row_count_iff_terminated small_file (line "h") [line "r1"; line "r2"]).
  vm_compute; reflexivity.
Defined.

End Replay.

(* ===================================================================== *)
(** * The inference handler [input_fn] *)
(* ===================================================================== *)

Module Inference.
Import Py.

Section Handler.

(** The libraries the handler calls.  [read_csv] is
    [pd.read_csv(StringIO(body), header=None)], [transform] the unpickled
    preprocessor's [transform], which yields a two-dimensional array,
    [format_float] the way [to_csv] writes a number, and [csv_to_dmatrix]
    the container's encoder.  Each call may raise. *)
Variable DataFrame : Type.
Variable DMatrix : Type.
Variable read_csv : string -> result DataFrame.
Variable transform : DataFrame -> result (list (list float)).
Variable format_float : float -> string.
Variable csv_to_dmatrix : string -> result DMatrix.

(** One line of [to_csv(header=False, index=False)]. *)
Definition csv_row (row : list float) : string :=
  String.append (join "," (map format_float row)) (String nl EmptyString).

(** [pd.DataFrame(X).to_csv(X_csv, header=False, index=False)] followed by
    [X_csv.getvalue()]. *)
Definition to_csv (X : list (list float)) : string :=
  String.concat EmptyString (map csv_row X).

Definition unsupported (content_type : string) : string :=
  String.append "Content type " (String.append content_type " is not supported.").

Definition input_fn (request_body content_type : string) : result DMatrix :=
  if String.eqb content_type "text/csv" then
    rbind (read_csv request_body) (fun df =>
    rbind (transform df) (fun X =>
    let X_csv := to_csv X in
    let req_transformed := remove_nl X_csv in
    csv_to_dmatrix req_transformed))
  else
    Raise (ValueError (unsupported content_type)).

(** The string that reaches [csv_to_dmatrix], when the calls before it
    return. *)
Definition encoder_input (request_body : string) : result string :=
  rbind (read_csv request_body) (fun df =>
  rbind (transform df) (fun X => Return (remove_nl (to_csv X)))).

(** [isinstance] of the exception a call ends with, if it ends with one. *)
Definition raises_ValueError {A : Type} (r : result A) : bool :=
  match r with
  | Return _ => false
  | Raise e => is_ValueError e
  end.

(** ** Newlines *)

Lemma remove_nl_app (a b : string) :
  remove_nl (String.append a b) = String.append (remove_nl a) (remove_nl b).
Proof.
  induction a as [|c a IH]; simpl; [reflexivity|].
  destruct (Ascii.eqb c nl); simpl; now rewrite IH.
Qed.

Lemma count_nl_remove_nl (s : string) : count_nl (remove_nl s) = 0%nat.
Proof.
  induction s as [|c s IH]; simpl; [reflexivity|].
  destruct (Ascii.eqb c nl) eqn:E; simpl; [exact IH|]. now rewrite E.
Qed.

Lemma split_nl_no_nl (s : string) : count_nl s = 0%nat -> split_nl s = [s].
Proof.
  unfold split_nl. induction s as [|c s IH]; simpl; [reflexivity|].
  destruct (Ascii.eqb c nl); [discriminate|].
  intros H. now rewrite (IH H).
Qed.

Lemma remove_nl_concat (ls : list string) :
  remove_nl (String.concat EmptyString ls) =
  String.concat EmptyString (map remove_nl ls).
Proof.
  induction ls as [|x xs IH]; [reflexivity|].
  change (map remove_nl (x :: xs)) with (remove_nl x :: map remove_nl xs).
  rewrite !concat_empty_cons, remove_nl_app, IH. reflexivity.
Qed.

Lemma remove_nl_csv_row (row : list float) :
  remove_nl (csv_row row) = remove_nl (join "," (map format_float row)).
Proof.
  unfold csv_row. rewrite remove_nl_app. simpl.
  generalize (remove_nl (join "," (map format_float row))) as t.
  induction t as [|c t IH]; simpl; [reflexivity|]. now rewrite IH.
Qed.

(** What is left of the written array once the newlines are gone: the
    rows' texts, end to end. *)
Definition fused (X : list (list float)) : string :=
  String.concat EmptyString
    (map (fun row => remove_nl (join "," (map format_float row))) X).

Lemma remove_nl_to_csv (X : list (list float)) : remove_nl (to_csv X) = fused X.
Proof.
  unfold to_csv, fused. rewrite remove_nl_concat, map_map. f_equal.
  apply map_ext. intros row. apply remove_nl_csv_row.
Qed.

(** The rows of an array, each written as its numbers joined by commas,
    one after the other with nothing in between. *)
Definition rows_end_to_end (X : list (list float)) : string :=
  String.concat EmptyString (map (fun row => join "," (map format_float row)) X).

Lemma input_fn_text_csv (request_body : string) :
  input_fn request_body "text/csv" = rbind (encoder_input request_body) csv_to_dmatrix.
Proof.
  unfold input_fn, encoder_input. simpl.
  destruct (read_csv request_body) as [df|e]; simpl; [|reflexivity].
  destruct (transform df) as [X|e]; reflexivity.
Qed.

(** ** Claims about the handler *)

(** C9, as the code has it.  For a content type other than [text/csv] the
    handler raises its [ValueError] without looking at the body.  For
    [text/csv] it does not take that branch: it ends as the chain of
    library calls ends, so it returns the encoder's matrix when they all
    return, and then a [ValueError] is raised exactly when the content
    type is not [text/csv]. *)
Theorem input_fn_content_type (request_body content_type : string) :
  (content_type <> "text/csv" ->
     input_fn request_body content_type = Raise (ValueError (unsupported content_type))) /\
  (content_type = "text/csv" ->
     input_fn request_body content_type =
     rbind (encoder_input request_body) csv_to_dmatrix) /\
  (forall d, rbind (encoder_input request_body) csv_to_dmatrix = Return d ->
     (content_type = "text/csv" -> input_fn request_body content_type = Return d) /\
     (raises_ValueError (input_fn request_body content_type) = true <->
      content_type <> "text/csv")).
Proof.
  repeat split.
  - intros H. unfold input_fn.
    destruct (String.eqb content_type "text/csv") eqn:E; [|reflexivity].
    apply String.eqb_eq in E. contradiction.
  - intros ->. apply input_fn_text_csv.
  - intros ->. now rewrite input_fn_text_csv.
  - intros Hr ->. rewrite input_fn_text_csv, H in Hr. discriminate.
  - intros Hn. unfold input_fn.
    destruct (String.eqb content_type "text/csv") eqn:E; [|reflexivity].
    apply String.eqb_eq in E. contradiction.
Qed.

End Handler.

(** ** pandas' reader, as far as the handler's failures need it

    [pd.read_csv(..., header=None)] on a text: blank lines are skipped; a
    text with no line left raises [EmptyDataError]; a line with more fields
    than the first raises [ParserError]; shorter lines are filled up with
    missing values (written as empty fields here).  Quoting is not
    modelled. *)

Definition is_blank (l : string) : bool := String.eqb l EmptyString.

Fixpoint pad (n : nat) (fields : list string) : list string :=
  match n, fields with
  | O, _ => []
  | S n', [] => EmptyString :: pad n' []
  | S n', f :: fs => f :: pad n' fs
  end.

Definition pandas_read_csv (text : string) : result (list (list string)) :=
  let records := map (split_on ",") (filter (fun l => negb (is_blank l)) (split_nl text)) in
  match records with
  | [] => Raise (EmptyDataError "No columns to parse from file")
  | first :: _ =>
      let width := List.length first in
      if forallb (fun r => (List.length r <=? width)%nat) records
      then Return (map (pad width) records)
      else Raise (ParserError "Error tokenizing data")
  end.

(** A stand-in preprocessor and encoder for running the handler: every
    field becomes its length, written as a whole number, and the encoder
    keeps the records of the text it is given. *)
Definition demo_transform (df : list (list string)) : result (list (list float)) :=
  Return (map (map (fun f => float_of_Z (Z.of_nat (String.length f)))) df).

Definition demo_format (x : float) : string := str_of_Z (trunc x).

Definition demo_dmatrix (req : string) : result (list (list string)) :=
  Return (map (split_on ",") (filter (fun l => negb (is_blank l)) (split_nl req))).

Definition demo_input_fn : string -> string -> result (list (list string)) :=
  input_fn (list (list string)) (list (list string))
    pandas_read_csv demo_transform demo_format demo_dmatrix.

Definition two_rows : string :=
  String.append "a,bb" (String nl (String.append "ccc,dddd" (String nl EmptyString))).

(** C9 fails on an empty [text/csv] body: the reader raises
    [EmptyDataError], which is a [ValueError]. *)
Lemma empty_body_raises_ValueError :
  demo_input_fn EmptyString "text/csv" = Raise (EmptyDataError "No columns to parse from file") /\
  raises_ValueError (demo_input_fn EmptyString "text/csv") = true.
Proof. split; reflexivity. Qed.

(** Two rows, [1,2] and [3,4], end to end. *)
Example fused_two_rows :
  fused demo_format [[1%float; 2%float]; [3%float; 4%float]] = "1,23,4" /\
  rows_end_to_end demo_format [[1%float; 2%float]; [3%float; 4%float]] = "1,23,4".
Proof. split; vm_compute; reflexivity. Qed.

(* --------------------------------------------------------------------- *)
(** ** More about the handler: one row, and many *)
(* --------------------------------------------------------------------- *)

(** Number of occurrences of a character in a text. *)
Fixpoint count_char (c : ascii) (s : string) : nat :=
  match s with
  | EmptyString => O
  | String d s' => if Ascii.eqb d c then S (count_char c s') else count_char c s'
  end.

Lemma length_split_on (c : ascii) (s : string) :
  List.length (split_on c s) = S (count_char c s).
Proof.
  induction s as [|d s IH]; simpl; [reflexivity|].
  destruct (Ascii.eqb d c); simpl.
  - now rewrite IH.
  - destruct (split_on c s); simpl in *; [discriminate|exact IH].
Qed.

Lemma count_char_app (c : ascii) (a b : string) :
  count_char c (String.append a b) = (count_char c a + count_char c b)%nat.
Proof.
  induction a as [|d a IH]; simpl; [reflexivity|].
  destruct (Ascii.eqb d c); simpl; now rewrite IH.
Qed.

Lemma count_char_remove_nl (c : ascii) (s : string) :
  Ascii.eqb nl c = false -> count_char c (remove_nl s) = count_char c s.
Proof.
  intros Hc. induction s as [|d s IH]; simpl; [reflexivity|].
  destruct (Ascii.eqb d nl) eqn:E; simpl.
  - apply Ascii.eqb_eq in E. subst d. now rewrite Hc.
  - now rewrite IH.
Qed.

Lemma count_nl_app (a b : string) :
  count_nl (String.append a b) = (count_nl a + count_nl b)%nat.
Proof.
  induction a as [|d a IH]; simpl; [reflexivity|].
  destruct (Ascii.eqb d nl); simpl; now rewrite IH.
Qed.

Lemma remove_nl_clean (s : string) : count_nl s = 0%nat -> remove_nl s = s.
Proof.
  induction s as [|d s IH]; simpl; [reflexivity|].
  destruct (Ascii.eqb d nl); [discriminate|]. intros H. now rewrite IH.
Qed.

Lemma count_nl_join (parts : list string) :
  Forall (fun p => count_nl p = 0%nat) parts -> count_nl (join "," parts) = 0%nat.
Proof.
  induction 1 as [|p parts Hp _ IH]; [reflexivity|].
  destruct parts as [|q parts]; [exact Hp|].
  change (join "," (p :: q :: parts))
    with (String.append p (String.append "," (join "," (q :: parts)))).
  rewrite !count_nl_app, Hp, IH. reflexivity.
Qed.

Lemma count_comma_join (parts : list string) :
  Forall (fun p => count_char ","%char p = 0%nat) parts ->
  count_char ","%char (join "," parts) = Nat.pred (List.length parts).
Proof.
  induction 1 as [|p parts Hp _ IH]; [reflexivity|].
  destruct parts as [|q parts]; [exact Hp|].
  change (join "," (p :: q :: parts))
    with (String.append p (String.append "," (join "," (q :: parts)))).
  rewrite !count_char_app, Hp, IH. reflexivity.
Qed.

Lemma count_char_concat (c : ascii) (ls : list string) :
  count_char c (String.concat EmptyString ls) =
  fold_right (fun l acc => (count_char c l + acc)%nat) O ls.
Proof.
  induction ls as [|x xs IH]; [reflexivity|].
  rewrite concat_empty_cons, count_char_app, IH. reflexivity.
Qed.

Section HandlerFacts.

Variable DataFrame : Type.
Variable DMatrix : Type.
Variable read_csv : string -> result DataFrame.
Variable transform : DataFrame -> result (list (list float)).
Variable format_float : float -> string.
Variable csv_to_dmatrix : string -> result DMatrix.

Local Abbreviation handler :=
  (input_fn DataFrame DMatrix read_csv transform format_float csv_to_dmatrix).

Lemma count_nl_to_csv (X : list (list float)) :
  (forall x, count_nl (format_float x) = 0%nat) ->
  count_nl (to_csv format_float X) = List.length X.
Proof.
  intros Hf. unfold to_csv. induction X as [|row X IH]; [reflexivity|].
  change (map (csv_row format_float) (row :: X))
    with (csv_row format_float row :: map (csv_row format_float) X).
  rewrite concat_empty_cons, count_nl_app, IH. unfold csv_row.
  rewrite count_nl_app, count_nl_join; [reflexivity|].
  rewrite Forall_map. apply Forall_forall. intros x _. apply Hf.
Qed.

Lemma fused_rows_end_to_end (X : list (list float)) :
  (forall x, count_nl (format_float x) = 0%nat) ->
  fused format_float X = rows_end_to_end format_float X.
Proof.
  intros Hf. unfold fused, rows_end_to_end. f_equal. apply map_ext. intros row.
  apply remove_nl_clean, count_nl_join.
  rewrite Forall_map. apply Forall_forall. intros x _. apply Hf.
Qed.

(** C10.  For a [text/csv] body that parses and transforms to the array
    [X], written in a number format free of newlines: the text [to_csv]
    builds has one newline per row of [X], and the string handed to the
    encoder is the rows of [X], each its numbers joined by commas, one
    after the other with nothing in between.  It holds no newline, hence
    is one record, whatever the number of rows. *)
Theorem request_rows_are_fused (request_body : string) (df : DataFrame)
    (X : list (list float)) :
  read_csv request_body = Return df ->
  transform df = Return X ->
  (forall x, count_nl (format_float x) = 0%nat) ->
  count_nl (to_csv format_float X) = List.length X /\
  handler request_body "text/csv" = csv_to_dmatrix (rows_end_to_end format_float X) /\
  encoder_input DataFrame read_csv transform format_float request_body =
    Return (rows_end_to_end format_float X) /\
  count_nl (rows_end_to_end format_float X) = 0%nat /\
  split_nl (rows_end_to_end format_float X) = [rows_end_to_end format_float X].
Proof.
  intros Hr Ht Hf.
  assert (He : encoder_input DataFrame read_csv transform format_float request_body =
               Return (rows_end_to_end format_float X)).
  { unfold encoder_input. rewrite Hr. simpl. rewrite Ht. simpl.
    now rewrite remove_nl_to_csv, fused_rows_end_to_end. }
  assert (Hc : count_nl (rows_end_to_end format_float X) = 0%nat).
  { rewrite <- fused_rows_end_to_end, <- remove_nl_to_csv by exact Hf.
    apply count_nl_remove_nl. }
  split; [now apply count_nl_to_csv|].
  split; [rewrite input_fn_text_csv, He; reflexivity|].
  split; [exact He|].
  split; [exact Hc|apply split_nl_no_nl, Hc].
Qed.

(** X8.  For a [text/csv] body that transforms to a single row, and a
    number format free of newlines, the encoder receives exactly the
    row's numbers joined by commas. *)
Theorem single_row_request (request_body : string) (df : DataFrame) (row : list float) :
  read_csv request_body = Return df ->
  transform df = Return [row] ->
  (forall x, count_nl (format_float x) = 0%nat) ->
  handler request_body "text/csv" = csv_to_dmatrix (join "," (map format_float row)).
Proof.
  intros Hr Ht Hf.
  unfold input_fn. simpl. rewrite Hr. simpl. rewrite Ht. simpl.
  rewrite (remove_nl_to_csv format_float). unfold fused. simpl.
  rewrite remove_nl_clean; [reflexivity|].
  apply count_nl_join. rewrite Forall_map. apply Forall_forall. intros x _. apply Hf.
Qed.

(** X9.  For an array of r rows of c+1 numbers each, written in a format
    free of commas, the text handed to the encoder has r*c+1 fields: at
    each row boundary the last number of a row and the first number of
    the next run together into one field. *)
Theorem fused_field_count (X : list (list float)) (c : nat) :
  (forall x, count_char ","%char (format_float x) = 0%nat) ->
  Forall (fun row => List.length row = S c) X ->
  List.length (split_on ","%char (remove_nl (to_csv format_float X))) =
  S (List.length X * c).
Proof.
  intros Hf HX. rewrite length_split_on. f_equal.
  rewrite remove_nl_to_csv. unfold fused. rewrite count_char_concat.
  induction HX as [|row X Hrow _ IH]; [reflexivity|].
  simpl. rewrite IH, count_char_remove_nl by reflexivity.
  rewrite count_comma_join, length_map, Hrow; [reflexivity|].
  rewrite Forall_map. apply Forall_forall. intros x _. apply Hf.
Qed.

End HandlerFacts.

Lemma demo_format_plain (c : ascii) (x : float) :
  Ascii.eqb c "0"%char = false -> Ascii.eqb c "1"%char = false ->
  Ascii.eqb c "2"%char = false -> Ascii.eqb c "3"%char = false ->
  Ascii.eqb c "4"%char = false -> Ascii.eqb c "5"%char = false ->
  Ascii.eqb c "6"%char = false -> Ascii.eqb c "7"%char = false ->
  Ascii.eqb c "8"%char = false -> Ascii.eqb c "9"%char = false ->
  Ascii.eqb c "-"%char = false ->
  count_char c (demo_format x) = 0%nat.
Proof.
  intros H0 H1 H2 H3 H4 H5 H6 H7 H8 H9 Hm.
  unfold demo_format, str_of_Z.
  assert (Hu : forall d, count_char c (NilEmpty.string_of_uint d) = 0%nat).
  { induction d; cbn [NilEmpty.string_of_uint count_char]; [reflexivity|..];
      match goal with |- context [Ascii.eqb ?k c] => rewrite (Ascii.eqb_sym k c) end;
      rewrite ?H0, ?H1, ?H2, ?H3, ?H4, ?H5, ?H6, ?H7, ?H8, ?H9; assumption. }
  destruct (Z.to_int (trunc x)) as [d|d]; cbn [NilEmpty.string_of_int count_char].
  - apply Hu.
  - match goal with |- context [Ascii.eqb ?k c] => rewrite (Ascii.eqb_sym k c) end.
    rewrite Hm. apply Hu.
Qed.

(** A body of two rows, [a,bb] and [ccc,dddd], is written as two lines
    and reaches the encoder as the single record [1,23,4]. *)
Lemma request_rows_are_fused_witness :
  count_nl (to_csv demo_format [[1%float; 2%float]; [3%float; 4%float]]) =
    List.length [[1%float; 2%float]; [3%float; 4%float]] /\
  demo_input_fn two_rows "text/csv" =
    demo_dmatrix (rows_end_to_end demo_format [[1%float; 2%float]; [3%float; 4%float]]) /\
  encoder_input (list (list string)) pandas_read_csv demo_transform demo_format two_rows =
    Return (rows_end_to_end demo_format [[1%float; 2%float]; [3%float; 4%float]]) /\
  count_nl (rows_end_to_end demo_format [[1%float; 2%float]; [3%float; 4%float]]) = 0%nat /\
  split_nl (rows_end_to_end demo_format [[1%float; 2%float]; [3%float; 4%float]]) =
    [rows_end_to_end demo_format [[1%float; 2%float]; [3%float; 4%float]]].
Proof.
  apply (request_rows_are_fused (list (list string)) (list (list string))
           pandas_read_csv demo_transform demo_format demo_dmatrix
           two_rows [["a"; "bb"]; ["ccc"; "dddd"]]).
  - vm_compute; reflexivity.
  - vm_compute; reflexivity.
  - intros x. assert (H := demo_format_plain nl x).
    assert (E : forall s, count_nl s = count_char nl s).
    { induction s as [|d s IH]; simpl; [reflexivity|]. now rewrite IH. }
    rewrite E. apply H; reflexivity.
Defined.

(** One row [a,bb] reaches the encoder as [1,2]. *)
Lemma single_row_request_witness :
  demo_input_fn "a,bb" "text/csv" =
  demo_dmatrix (join "," (map demo_format [1%float; 2%float])).
Proof.
  apply (single_row_request (list (list string)) (list (list string))
           pandas_read_csv demo_transform demo_format demo_dmatrix
           "a,bb" [["a"; "bb"]] [1%float; 2%float]).
  - vm_compute; reflexivity.
  - vm_compute; reflexivity.
  - intros x. assert (H := demo_format_plain nl x).
    assert (E : forall s, count_nl s = count_char nl s).
    { induction s as [|d s IH]; simpl; [reflexivity|]. now rewrite IH. }
    rewrite E. apply H; reflexivity.
Defined.

(** Two rows of two numbers reach the encoder as three fields. *)
Lemma fused_field_count_witness :
  List.length (split_on ","%char
     (remove_nl (to_csv demo_format [[1%float; 2%float]; [3%float; 4%float]]))) =
  S (List.length [[1%float; 2%float]; [3%float; 4%float]] * 1).
Proof.
  apply (fused_field_count demo_format [[1%float; 2%float]; [3%float; 4%float]] 1).
  - intros x. apply demo_format_plain; reflexivity.
  - repeat constructor.
Defined.

End Inference.

(* ===================================================================== *)
(** * The data-preparation cells of the training notebook *)
(* ===================================================================== *)

Module Training.
Import Py.

(** A cell of the census table: a whole number, a text, or a missing
    value.  (The raw file holds no fractional numbers.) *)
Inductive cell : Type :=
| Int (z : Z)
| Str (s : string)
| NaN.

(** A pandas frame: column names, row labels, and the rows. *)
Record DataFrame : Type := mkFrame {
  columns : list string;
  index : list nat;
  values : list (list cell)
}.

(** Frames are rectangular: one label per row, one cell per column. *)
Definition rect (df : DataFrame) : Prop :=
  List.length (index df) = List.length (values df) /\
  Forall (fun row => List.length row = List.length (columns df)) (values df).

Definition column_names : list string :=
  ["age"; "workclass"; "fnlwgt"; "education"; "education-num";
   "marital-status"; "occupation"; "relationship"; "race"; "sex";
   "capital-gain"; "capital-loss"; "hours-per-week"; "native-country";
   "income"].

(** ** Cleaning *)

(** [df.replace('?', np.NaN, inplace=True)]. *)
Definition replace_cell (old : string) (c : cell) : cell :=
  match c with
  | Str s => if String.eqb s old then NaN else c
  | _ => c
  end.

Definition df_replace (old : string) (df : DataFrame) : DataFrame :=
  mkFrame (columns df) (index df) (map (map (replace_cell old)) (values df)).

Definition is_str (c : cell) : bool :=
  match c with Str _ => true | _ => false end.

(** [df.dtypes == "object"], column by column: a column is of object
    type when it holds a text. *)
Definition object_columns (df : DataFrame) : list bool :=
  map (fun j => existsb (fun row => is_str (nth j row NaN)) (values df))
      (seq 0 (List.length (columns df))).

Fixpoint remove_spaces (s : string) : string :=
  match s with
  | EmptyString => EmptyString
  | String c s' =>
      if Ascii.eqb c " "%char then remove_spaces s' else String c (remove_spaces s')
  end.

(** [.str.replace] of a blank by nothing, on one cell; what is not a text comes out
    missing. *)
Definition str_replace_cell (c : cell) : cell :=
  match c with
  | Str s => Str (remove_spaces s)
  | _ => NaN
  end.

Definition strip_row (object : list bool) (row : list cell) : list cell :=
  map (fun jc => if nth (fst jc) object false then str_replace_cell (snd jc) else snd jc)
      (combine (seq 0 (List.length row)) row).

(** [for i in cols: df[i] = df[i].str.replace(...)]: the blanks go from
    every object column. *)
Definition strip_object_columns (df : DataFrame) : DataFrame :=
  mkFrame (columns df) (index df) (map (strip_row (object_columns df)) (values df)).

(** ** Columns *)

Fixpoint position (name : string) (names : list string) : option nat :=
  match names with
  | [] => None
  | n :: ns => if String.eqb n name then Some O
               else option_map S (position name ns)
  end.

Fixpoint remove_nth {A : Type} (j : nat) (l : list A) : list A :=
  match j, l with
  | _, [] => []
  | O, _ :: xs => xs
  | S j', x :: xs => x :: remove_nth j' xs
  end.

(** [df.drop(name, axis=1)]; an unknown name is a [KeyError]. *)
Definition drop (name : string) (df : DataFrame) : result DataFrame :=
  match position name (columns df) with
  | Some j => Return (mkFrame (remove_nth j (columns df)) (index df)
                              (map (remove_nth j) (values df)))
  | None => Raise (OtherError "KeyError" name)
  end.

(** [df[name]] as a list of cells. *)
Definition get_column (name : string) (df : DataFrame) : result (list cell) :=
  match position name (columns df) with
  | Some j => Return (map (fun row => nth j row NaN) (values df))
  | None => Raise (OtherError "KeyError" name)
  end.

(** ** Writing CSV: [to_csv(path, index=False)] *)

Definition dq : ascii := "034"%char.

Fixpoint mentions (c : ascii) (s : string) : bool :=
  match s with
  | EmptyString => false
  | String d s' => Ascii.eqb c d || mentions c s'
  end.

Fixpoint double_quotes (s : string) : string :=
  match s with
  | EmptyString => EmptyString
  | String c s' =>
      if Ascii.eqb c dq then String dq (String dq (double_quotes s'))
      else String c (double_quotes s')
  end.

(** Minimal quoting: a field is quoted when it holds the delimiter, a
    quote or a line break. *)
Definition csv_field (s : string) : string :=
  if mentions ","%char s || mentions dq s || mentions nl s
  then String dq (String.append (double_quotes s) (String dq EmptyString))
  else s.

Definition csv_line (fields : list string) : string :=
  String.append (join "," (map csv_field fields)) (String nl EmptyString).

Definition csv_text (records : list (list string)) : string :=
  String.concat EmptyString (map csv_line records).

Definition render (c : cell) : string :=
  match c with
  | Int z => str_of_Z z
  | Str s => s
  | NaN => EmptyString
  end.

(** The records of the file: the header, then one record per row. *)
Definition to_csv_records (df : DataFrame) : list (list string) :=
  columns df :: map (map render) (values df).

Definition to_csv (df : DataFrame) : string := csv_text (to_csv_records df).

(** ** Positional selection *)

(** The elements of [l] at the given positions, in that order. *)
Definition take {A : Type} (positions : list nat) (l : list A) : list A :=
  flat_map (fun i => match nth_error l i with
                     | Some x => [x]
                     | None => []
                     end) positions.

Definition take_rows (positions : list nat) (df : DataFrame) : DataFrame :=
  mkFrame (columns df) (take positions (index df)) (take positions (values df)).


(** The doubles Python reads for [0.1] and [0.2]. *)
Definition test_size_tenth : float := 0x1.999999999999ap-4%float.

Definition test_size_fifth : float := 0x1.999999999999ap-3%float.

(** ** The notebook

    The cells run against a notebook state: the local files, the objects
    uploaded to the bucket, and the library calls made so far, oldest
    first. *)

Inductive step : Type :=
| ReadCsv (path : string)
| TrainTestSplit (test_size : float)
| ToCsv (path : string)
| FitTransform
| PickleDump (path : string)
| SaveTxt (path : string)
| Upload (path key : string)
| FitModel.

Record Notebook : Type := mkNotebook {
  files : list (string * string);
  bucket : list (string * string);
  log : list step
}.

Inductive outcome (A : Type) : Type :=
| Done (a : A) (nb : Notebook)
| Err (e : exn) (nb : Notebook).
Arguments Done {A} a nb.
Arguments Err {A} e nb.

Definition NB (A : Type) : Type := Notebook -> outcome A.

Definition ret {A : Type} (a : A) : NB A := fun nb => Done a nb.

Definition bind {A B : Type} (m : NB A) (k : A -> NB B) : NB B :=
  fun nb => match m nb with
            | Done a nb' => k a nb'
            | Err e nb' => Err e nb'
            end.

Definition lift {A : Type} (r : result A) : NB A :=
  fun nb => match r with
            | Return a => Done a nb
            | Raise e => Err e nb
            end.

Definition logged (s : step) : NB unit :=
  fun nb => Done tt (mkNotebook (files nb) (bucket nb) (log nb ++ [s])).

(** A library call: it is made, and then returns or raises. *)
Definition call {A : Type} (s : step) (r : result A) : NB A :=
  bind (logged s) (fun _ => lift r).

Fixpoint lookup (path : string) (fs : list (string * string)) : option string :=
  match fs with
  | [] => None
  | (p, text) :: rest => if String.eqb p path then Some text else lookup path rest
  end.

Definition write_file (s : step) (path text : string) : NB unit :=
  bind (logged s) (fun _ nb =>
    Done tt (mkNotebook ((path, text) :: files nb) (bucket nb) (log nb))).

(** [Bucket(bucket).Object(key).upload_file(path)]. *)
Definition upload_file (key path : string) : NB unit :=
  bind (logged (Upload path key)) (fun _ nb =>
    match lookup path (files nb) with
    | Some text => Done tt (mkNotebook (files nb) ((key, text) :: bucket nb) (log nb))
    | None => Err (FileNotFoundError path) nb
    end).

Definition final_log {A : Type} (o : outcome A) : list step :=
  match o with
  | Done _ nb | Err _ nb => log nb
  end.

(** The place of the first step of a kind in a log. *)
Fixpoint first_index (p : step -> bool) (l : list step) : option nat :=
  match l with
  | [] => None
  | s :: rest => if p s then Some O else option_map S (first_index p rest)
  end.

Definition is_split (s : step) : bool :=
  match s with TrainTestSplit _ => true | _ => false end.

Definition is_fit_transform (s : step) : bool :=
  match s with FitTransform => true | _ => false end.

(** ** Facts about selection and frames *)

Lemma take_app {A : Type} (p q : list nat) (l : list A) :
  take (p ++ q) l = take p l ++ take q l.
Proof. unfold take. apply flat_map_app. Qed.

Lemma In_take {A : Type} (positions : list nat) (l : list A) (x : A) :
  In x (take positions l) <-> exists i, In i positions /\ nth_error l i = Some x.
Proof.
  unfold take. rewrite in_flat_map. split.
  - intros (i & Hi & Hx). exists i. split; [exact Hi|].
    destruct (nth_error l i) as [y|]; simpl in Hx; [|contradiction].
    destruct Hx as [->|[]]. reflexivity.
  - intros (i & Hi & Hx). exists i. split; [exact Hi|]. rewrite Hx. now left.
Qed.

Lemma take_incl {A : Type} (positions : list nat) (l : list A) :
  incl (take positions l) l.
Proof.
  intros x Hx. apply In_take in Hx. destruct Hx as (i & _ & Hx).
  eapply nth_error_In; exact Hx.
Qed.

Lemma NoDup_take {A : Type} (positions : list nat) (l : list A) :
  NoDup l -> NoDup positions -> NoDup (take positions l).
Proof.
  intros Hl Hp. induction Hp as [|i positions Hi Hp IH]; [constructor|].
  change (take (i :: positions) l)
    with (match nth_error l i with Some x => [x] | None => [] end ++ take positions l).
  destruct (nth_error l i) as [x|] eqn:E; [|exact IH].
  simpl. constructor; [|exact IH].
  intros Hx. apply In_take in Hx. destruct Hx as (j & Hj & Ej).
  assert (i = j).
  { apply (proj1 (NoDup_nth_error l) Hl).
    - apply nth_error_Some. congruence.
    - congruence. }
  subst. contradiction.
Qed.

Lemma length_take {A B : Type} (positions : list nat) (l : list A) (m : list B) :
  List.length l = List.length m ->
  List.length (take positions l) = List.length (take positions m).
Proof.
  intros H. induction positions as [|i positions IH]; [reflexivity|].
  change (take (i :: positions) l)
    with (match nth_error l i with Some x => [x] | None => [] end ++ take positions l).
  change (take (i :: positions) m)
    with (match nth_error m i with Some x => [x] | None => [] end ++ take positions m).
  rewrite !length_app, IH. f_equal.
  destruct (nth_error l i) eqn:El, (nth_error m i) eqn:Em; try reflexivity.
  - apply nth_error_None in Em. assert (nth_error l i <> None) by congruence.
    apply nth_error_Some in H0. lia.
  - apply nth_error_None in El. assert (nth_error m i <> None) by congruence.
    apply nth_error_Some in H0. lia.
Qed.

Lemma NoDup_app_disjoint {A : Type} (l1 l2 : list A) (a : A) :
  NoDup (l1 ++ l2) -> In a l1 -> ~ In a l2.
Proof.
  induction l1 as [|x l1 IH]; simpl; [contradiction|].
  intros H [->|Ha] H2.
  - inversion H as [|? ? Hn _]; subst. apply Hn. apply in_or_app. now right.
  - inversion H; subst. now apply IH.
Qed.

Lemma rect_take_rows (positions : list nat) (df : DataFrame) :
  rect df -> rect (take_rows positions df).
Proof.
  intros [Hl Hw]. split; simpl.
  - apply length_take. exact Hl.
  - rewrite Forall_forall in *. intros row Hr. apply Hw.
    eapply take_incl. exact Hr.
Qed.

Lemma length_strip_row (object : list bool) (row : list cell) :
  List.length (strip_row object row) = List.length row.
Proof.
  unfold strip_row. rewrite length_map, length_combine, length_seq.
  apply Nat.min_id.
Qed.

Lemma rect_clean (df : DataFrame) :
  rect df -> rect (strip_object_columns (df_replace "?" df)).
Proof.
  intros [Hl Hw]. split; simpl.
  - now rewrite !length_map.
  - rewrite Forall_forall in *. intros row Hr.
    apply in_map_iff in Hr. destruct Hr as (r1 & <- & Hr1).
    apply in_map_iff in Hr1. destruct Hr1 as (r0 & <- & Hr0).
    rewrite length_strip_row, length_map. now apply Hw.
Qed.

Lemma csv_text_cons (header : list string) (body : list (list string)) :
  csv_text (header :: body) = String.append (csv_line header) (csv_text body).
Proof. unfold csv_text. simpl map. apply concat_empty_cons. Qed.

(** ** Running the monad backwards *)

Lemma bind_Done {A B : Type} (m : NB A) (k : A -> NB B) (nb nb' : Notebook) (b : B) :
  bind m k nb = Done b nb' ->
  exists a nb1, m nb = Done a nb1 /\ k a nb1 = Done b nb'.
Proof.
  unfold bind. destruct (m nb) as [a nb1|e nb1]; [|discriminate].
  intros H. exists a, nb1. split; [reflexivity|exact H].
Qed.

Lemma call_Done {A : Type} (s : step) (r : result A) (nb nb' : Notebook) (a : A) :
  call s r nb = Done a nb' ->
  r = Return a /\ nb' = mkNotebook (files nb) (bucket nb) (log nb ++ [s]).
Proof.
  unfold call, bind, logged, lift. destruct r; [|discriminate].
  intros [= <- <-]. split; reflexivity.
Qed.

Lemma lift_Done {A : Type} (r : result A) (nb nb' : Notebook) (a : A) :
  lift r nb = Done a nb' -> r = Return a /\ nb' = nb.
Proof.
  unfold lift. destruct r; [|discriminate]. intros [= <- <-]. split; reflexivity.
Qed.

Lemma write_file_Done (s : step) (path text : string) (nb nb' : Notebook) (u : unit) :
  write_file s path text nb = Done u nb' ->
  nb' = mkNotebook ((path, text) :: files nb) (bucket nb) (log nb ++ [s]).
Proof. unfold write_file, bind, logged. intros [= _ <-]. reflexivity. Qed.

Lemma upload_file_Done (key path : string) (nb nb' : Notebook) (u : unit) :
  upload_file key path nb = Done u nb' ->
  files nb' = files nb /\ log nb' = log nb ++ [Upload path key].
Proof.
  unfold upload_file, bind, logged. simpl.
  destruct (lookup path (files nb)); [|discriminate].
  intros [= _ <-]. split; reflexivity.
Qed.

Section Pipeline.

(** The libraries behind the cells.  [read_csv path names] is
    [pd.read_csv(path, names=names)]; [permutation n] is the shuffle that
    [RandomState(42)] gives for [n] samples (both splits seed it with 42);
    [fit] fits the column transformer (mean and most-frequent imputation,
    one-hot encoding) on a frame, given the numeric and the categorical
    column positions, and [transform_row] applies the fitted transformer
    to one row; [label_of] is the fitted label encoder; [format_f] writes
    a number under [fmt='%f']. *)
Variable read_csv : string -> list string -> result DataFrame.
Variable permutation : nat -> list nat.
Variable Preprocessor : Type.
Variable fit : list nat -> list nat -> DataFrame -> Preprocessor.
Variable transform_row : Preprocessor -> list cell -> list float.
Variable label_of : list cell -> cell -> float.
Variable format_f : float -> string.
Variable pickle_dumps : Preprocessor -> string.

(** scikit-learn's shuffle split for a fractional [test_size]:
    [n_test = ceil(test_size * n)], [n_train = n - n_test], an empty
    training set is refused; the test positions are the first [n_test] of
    the permutation and the training positions the [n_train] after
    them. *)
Definition shuffle_split (test_size : float) (n : nat) : result (list nat * list nat) :=
  let n_test := ceil (PrimFloat.mul test_size (float_of_Z (Z.of_nat n))) in
  let n_train := Z.of_nat n - n_test in
  if n_train =? 0
  then Raise (ValueError "the resulting train set will be empty")
  else
    let p := permutation n in
    let ind_test := firstn (Z.to_nat n_test) p in
    let ind_train := firstn (Z.to_nat n_train) (skipn (Z.to_nat n_test) p) in
    Return (ind_train, ind_test).

(** [train_test_split(df, test_size=..., random_state=42)] on a frame. *)
Definition train_test_split_df (df : DataFrame) (test_size : float)
  : result (DataFrame * DataFrame) :=
  rbind (shuffle_split test_size (List.length (values df)))
        (fun ind => Return (take_rows (fst ind) df, take_rows (snd ind) df)).

(** [train_test_split(X, test_size=..., random_state=42)] on an array. *)
Definition train_test_split {A : Type} (X : list A) (test_size : float)
  : result (list A * list A) :=
  rbind (shuffle_split test_size (List.length X))
        (fun ind => Return (take (fst ind) X, take (snd ind) X)).

(** [[i for i, x in enumerate(df.dtypes) if x != object]] and its
    complement. *)
Definition numeric_ind (df : DataFrame) : list nat :=
  map fst (filter (fun jb => negb (snd jb))
                  (combine (seq 0 (List.length (columns df))) (object_columns df))).

Definition cat_ind (df : DataFrame) : list nat :=
  map fst (filter (fun jb => snd jb)
                  (combine (seq 0 (List.length (columns df))) (object_columns df))).

(** [np.insert(X, 0, y, axis=1)]. *)
Definition insert_first (y : list float) (X : list (list float)) : list (list float) :=
  map (fun yr => fst yr :: snd yr) (combine y X).

(** [np.savetxt(path, X, delimiter=",", fmt='%f')]. *)
Definition savetxt_text (X : list (list float)) : string :=
  String.concat EmptyString
    (map (fun row => String.append (join "," (map format_f row)) (String nl EmptyString)) X).

Definition prefix : string := "sagemaker/DEMO-ModelMonitor".

(** The variables the cells leave behind. *)
Record Vars : Type := mkVars {
  df : DataFrame;
  df_train_val : DataFrame;
  df_test : DataFrame;
  df_train_val_no_target : DataFrame;
  preprocessor : Preprocessor;
  X : list (list float);
  X_train : list (list float);
  X_val : list (list float)
}.

Notation "x <- m ;; k" := (bind m (fun x => k))
  (at level 61, m at next level, right associativity).
Notation "m ;;; k" := (bind m (fun _ => k))
  (at level 61, right associativity).

(** Read, clean, split off the test set, write both splits. *)
Definition load_and_split : NB (DataFrame * DataFrame * DataFrame * DataFrame) :=
  df0 <- call (ReadCsv "data/adult.csv") (read_csv "data/adult.csv" column_names) ;;
  let df1 := df_replace "?" df0 in
  let df := strip_object_columns df1 in
  parts <- call (TrainTestSplit test_size_tenth) (train_test_split_df df test_size_tenth) ;;
  let df_train_val := fst parts in
  let df_test := snd parts in
  df_train_val_no_target <- lift (drop "income" df_train_val) ;;
  write_file (ToCsv "data/train.csv") "data/train.csv" (to_csv df_train_val) ;;;
  write_file (ToCsv "data/test.csv") "data/test.csv" (to_csv df_test) ;;;
  ret (df, df_train_val, df_test, df_train_val_no_target).

(** Fit the preprocessor on the training-and-validation rows, transform
    them, put the label in front, save the preprocessor.

    The rows cut out by the split keep the dtype every column has in
    [df], so [df_train_val_no_target.dtypes] is read off [df] without its
    [income] column. *)
Definition preprocess (df df_train_val df_train_val_no_target : DataFrame)
  : NB (Preprocessor * list (list float)) :=
  dtypes <- lift (drop "income" df) ;;
  let pre := fit (numeric_ind dtypes) (cat_ind dtypes) df_train_val_no_target in
  logged FitTransform ;;;
  let X := map (transform_row pre) (values df_train_val_no_target) in
  income <- lift (get_column "income" df_train_val) ;;
  let y := map (label_of income) income in
  let X := insert_first y X in
  write_file (PickleDump "script/preprocess.pkl") "script/preprocess.pkl" (pickle_dumps pre) ;;;
  ret (pre, X).

(** Split the transformed array again, write and upload both parts. *)
Definition train_val_split (X : list (list float))
  : NB (list (list float) * list (list float)) :=
  parts <- call (TrainTestSplit test_size_fifth) (train_test_split X test_size_fifth) ;;
  let X_train := fst parts in
  let X_val := snd parts in
  write_file (SaveTxt "data/train_transform.csv") "data/train_transform.csv"
             (savetxt_text X_train) ;;;
  write_file (SaveTxt "data/val_transform.csv") "data/val_transform.csv"
             (savetxt_text X_val) ;;;
  upload_file (String.append prefix "/train/train.csv") "data/train_transform.csv" ;;;
  upload_file (String.append prefix "/validation/validation.csv") "data/val_transform.csv" ;;;
  ret (X_train, X_val).

(** The cells in notebook order, up to the training job. *)
Definition pipeline : NB Vars :=
  a <- load_and_split ;;
  let '(df, df_train_val, df_test, df_train_val_no_target) := a in
  b <- preprocess df df_train_val df_train_val_no_target ;;
  let '(pre, X) := b in
  c <- train_val_split X ;;
  let '(X_train, X_val) := c in
  logged FitModel ;;;
  ret (mkVars df df_train_val df_test df_train_val_no_target pre X X_train X_val).

(** The log of a run that reaches the training job. *)
Definition pipeline_log : list step :=
  [ReadCsv "data/adult.csv"; TrainTestSplit test_size_tenth;
   ToCsv "data/train.csv"; ToCsv "data/test.csv";
   FitTransform; PickleDump "script/preprocess.pkl";
   TrainTestSplit test_size_fifth;
   SaveTxt "data/train_transform.csv"; SaveTxt "data/val_transform.csv";
   Upload "data/train_transform.csv" (String.append prefix "/train/train.csv");
   Upload "data/val_transform.csv" (String.append prefix "/validation/validation.csv");
   FitModel].

(** ** What the libraries are relied on for

    A frame read with [names] has these names as its columns, is
    rectangular, and labels its rows 0, 1, 2, ...; the shuffle of [n]
    samples is a permutation of their positions. *)
Hypothesis read_csv_frame : forall path names df,
  read_csv path names = Return df ->
  columns df = names /\ rect df /\ index df = seq 0 (List.length (values df)).

Hypothesis permutation_range : forall n, Permutation (permutation n) (seq 0 n).

Lemma shuffle_split_NoDup (test_size : float) (n : nat) (ind_train ind_test : list nat) :
  shuffle_split test_size n = Return (ind_train, ind_test) ->
  NoDup (ind_test ++ ind_train).
Proof.
  unfold shuffle_split.
  destruct (Z.of_nat n - ceil (PrimFloat.mul test_size (float_of_Z (Z.of_nat n))) =? 0);
    [discriminate|].
  intros [= <- <-].
  assert (Hp : NoDup (permutation n)).
  { eapply Permutation_NoDup; [apply Permutation_sym, permutation_range|apply seq_NoDup]. }
  set (k := Z.to_nat (ceil (PrimFloat.mul test_size (float_of_Z (Z.of_nat n))))) in *.
  set (m := Z.to_nat (Z.of_nat n - ceil (PrimFloat.mul test_size (float_of_Z (Z.of_nat n))))) in *.
  rewrite <- (firstn_skipn k (permutation n)) in Hp.
  rewrite <- (firstn_skipn m (skipn k (permutation n))) in Hp.
  rewrite app_assoc in Hp. apply NoDup_app_remove_r in Hp. exact Hp.
Qed.

Lemma load_and_split_Done (nb nb' : Notebook) (d tv te nt : DataFrame) :
  load_and_split nb = Done (d, tv, te, nt) nb' ->
  exists d0 ind_train ind_test,
    read_csv "data/adult.csv" column_names = Return d0 /\
    d = strip_object_columns (df_replace "?" d0) /\
    shuffle_split test_size_tenth (List.length (values d)) = Return (ind_train, ind_test) /\
    tv = take_rows ind_train d /\ te = take_rows ind_test d /\
    drop "income" tv = Return nt /\
    files nb' = ("data/test.csv", to_csv te) :: ("data/train.csv", to_csv tv) :: files nb /\
    log nb' = log nb ++ [ReadCsv "data/adult.csv"; TrainTestSplit test_size_tenth;
                         ToCsv "data/train.csv"; ToCsv "data/test.csv"].
Proof.
  unfold load_and_split. intros H.
  apply bind_Done in H. destruct H as (d0 & nb1 & H1 & H).
  apply call_Done in H1. destruct H1 as [Hr ->].
  apply bind_Done in H. destruct H as (parts & nb2 & H2 & H).
  apply call_Done in H2. destruct H2 as [Hs ->].
  apply bind_Done in H. destruct H as (nt' & nb3 & H3 & H).
  apply lift_Done in H3. destruct H3 as [Hd ->].
  apply bind_Done in H. destruct H as (u1 & nb4 & H4 & H).
  apply write_file_Done in H4. subst nb4.
  apply bind_Done in H. destruct H as (u2 & nb5 & H5 & H).
  apply write_file_Done in H5. subst nb5.
  unfold ret in H. injection H as <- <- <- <- <-.
  unfold train_test_split_df in Hs.
  destruct (shuffle_split test_size_tenth
              (List.length (values (strip_object_columns (df_replace "?" d0)))))
    as [[tr tepos]|e] eqn:Hsp; simpl in Hs; [|discriminate].
  injection Hs as <-. simpl fst in *. simpl snd in *.
  exists d0, tr, tepos. repeat split; try assumption; try reflexivity.
  simpl. rewrite <- !app_assoc. reflexivity.
Qed.

Lemma preprocess_Done (nb nb' : Notebook) (d tv nt : DataFrame)
    (pre : Preprocessor) (X0 : list (list float)) :
  preprocess d tv nt nb = Done (pre, X0) nb' ->
  exists income,
    (exists dtypes, drop "income" d = Return dtypes /\
                    pre = fit (numeric_ind dtypes) (cat_ind dtypes) nt) /\
    get_column "income" tv = Return income /\
    X0 = insert_first (map (label_of income) income)
                      (map (transform_row pre) (values nt)) /\
    files nb' = ("script/preprocess.pkl", pickle_dumps pre) :: files nb /\
    log nb' = log nb ++ [FitTransform; PickleDump "script/preprocess.pkl"].
Proof.
  unfold preprocess. intros H.
  apply bind_Done in H. destruct H as (dtypes & nb0 & H0 & H).
  apply lift_Done in H0. destruct H0 as [Hdt ->].
  apply bind_Done in H. destruct H as (u0 & nb1 & H1 & H).
  unfold logged in H1. injection H1 as _ <-.
  apply bind_Done in H. destruct H as (income & nb2 & H2 & H).
  apply lift_Done in H2. destruct H2 as [Hc ->].
  apply bind_Done in H. destruct H as (u1 & nb3 & H3 & H).
  apply write_file_Done in H3. subst nb3.
  unfold ret in H. injection H as <- <- <-.
  exists income.
  split; [exists dtypes; split; [exact Hdt|reflexivity]|].
  repeat split; try assumption; try reflexivity.
  simpl. rewrite <- !app_assoc. reflexivity.
Qed.

Lemma train_val_split_Done (nb nb' : Notebook) (X0 Xt Xv : list (list float)) :
  train_val_split X0 nb = Done (Xt, Xv) nb' ->
  exists ind_train ind_val,
    shuffle_split test_size_fifth (List.length X0) = Return (ind_train, ind_val) /\
    Xt = take ind_train X0 /\ Xv = take ind_val X0 /\
    files nb' = ("data/val_transform.csv", savetxt_text Xv) ::
                ("data/train_transform.csv", savetxt_text Xt) :: files nb /\
    log nb' = log nb ++
      [TrainTestSplit test_size_fifth;
       SaveTxt "data/train_transform.csv"; SaveTxt "data/val_transform.csv";
       Upload "data/train_transform.csv" (String.append prefix "/train/train.csv");
       Upload "data/val_transform.csv" (String.append prefix "/validation/validation.csv")].
Proof.
  unfold train_val_split. intros H.
  apply bind_Done in H. destruct H as (parts & nb1 & H1 & H).
  apply call_Done in H1. destruct H1 as [Hs ->].
  apply bind_Done in H. destruct H as (u1 & nb2 & H2 & H).
  apply write_file_Done in H2. subst nb2.
  apply bind_Done in H. destruct H as (u2 & nb3 & H3 & H).
  apply write_file_Done in H3. subst nb3.
  apply bind_Done in H. destruct H as (u3 & nb4 & H4 & H).
  apply upload_file_Done in H4. destruct H4 as [Hf4 Hl4].
  apply bind_Done in H. destruct H as (u4 & nb5 & H5 & H).
  apply upload_file_Done in H5. destruct H5 as [Hf5 Hl5].
  unfold ret in H. injection H as <- <- <-.
  unfold train_test_split in Hs.
  destruct (shuffle_split test_size_fifth (List.length X0)) as [[tr va]|e] eqn:Hsp;
    simpl in Hs; [|discriminate].
  injection Hs as <-. simpl fst in *. simpl snd in *.
  exists tr, va. repeat split; try reflexivity.
  - rewrite Hf5, Hf4. reflexivity.
  - rewrite Hl5, Hl4. simpl. rewrite <- !app_assoc. reflexivity.
Qed.

(** Everything a completed run has done, in one statement. *)
Lemma pipeline_Done (nb0 nb : Notebook) (v : Vars) :
  pipeline nb0 = Done v nb ->
  exists d0 ind_train ind_test income ind_train2 ind_val,
    read_csv "data/adult.csv" column_names = Return d0 /\
    df v = strip_object_columns (df_replace "?" d0) /\
    shuffle_split test_size_tenth (List.length (values (df v))) =
      Return (ind_train, ind_test) /\
    df_train_val v = take_rows ind_train (df v) /\
    df_test v = take_rows ind_test (df v) /\
    drop "income" (df_train_val v) = Return (df_train_val_no_target v) /\
    (exists dtypes, drop "income" (df v) = Return dtypes /\
                    preprocessor v = fit (numeric_ind dtypes) (cat_ind dtypes)
                                         (df_train_val_no_target v)) /\
    get_column "income" (df_train_val v) = Return income /\
    X v = insert_first (map (label_of income) income)
            (map (transform_row (preprocessor v)) (values (df_train_val_no_target v))) /\
    shuffle_split test_size_fifth (List.length (X v)) = Return (ind_train2, ind_val) /\
    X_train v = take ind_train2 (X v) /\ X_val v = take ind_val (X v) /\
    files nb = ("data/val_transform.csv", savetxt_text (X_val v)) ::
               ("data/train_transform.csv", savetxt_text (X_train v)) ::
               ("script/preprocess.pkl", pickle_dumps (preprocessor v)) ::
               ("data/test.csv", to_csv (df_test v)) ::
               ("data/train.csv", to_csv (df_train_val v)) :: files nb0 /\
    log nb = log nb0 ++ pipeline_log.
Proof.
  unfold pipeline. intros H.
  apply bind_Done in H. destruct H as ([[[d tv] te] nt] & nb1 & H1 & H).
  apply load_and_split_Done in H1.
  destruct H1 as (d0 & tr & tepos & Hr & Hd & Hs & Htv & Hte & Hdrop & Hf1 & Hl1).
  apply bind_Done in H. destruct H as ([pre X0] & nb2 & H2 & H).
  apply preprocess_Done in H2. destruct H2 as (income & Hpre & Hinc & HX & Hf2 & Hl2).
  apply bind_Done in H. destruct H as ([Xt Xv] & nb3 & H3 & H).
  apply train_val_split_Done in H3.
  destruct H3 as (tr2 & va & Hs2 & HXt & HXv & Hf3 & Hl3).
  apply bind_Done in H. destruct H as (u & nb4 & H4 & H).
  unfold logged in H4. injection H4 as _ <-.
  unfold ret in H. injection H as <- <-. simpl.
  exists d0, tr, tepos, income, tr2, va.
  repeat split; try assumption.
  - rewrite Hf3, Hf2, Hf1. reflexivity.
  - rewrite Hl3, Hl2, Hl1. unfold pipeline_log. rewrite <- !app_assoc. reflexivity.
Qed.

(** ** Claims about the cells *)

Lemma columns_of_run (nb0 nb : Notebook) (v : Vars) :
  pipeline nb0 = Done v nb ->
  columns (df v) = column_names /\ rect (df v) /\
  index (df v) = seq 0 (List.length (values (df v))) /\
  columns (df_train_val v) = column_names /\ rect (df_train_val v) /\
  columns (df_test v) = column_names /\ rect (df_test v).
Proof.
  intros H. apply pipeline_Done in H.
  destruct H as (d0 & tr & te & income & tr2 & va & Hr & Hd & _ & Htv & Hte & _).
  destruct (read_csv_frame _ _ _ Hr) as (Hc & Hrect & Hi).
  assert (Hrd : rect (df v)) by (rewrite Hd; now apply rect_clean).
  assert (Hcd : columns (df v) = column_names) by (rewrite Hd; exact Hc).
  repeat split; try (rewrite ?Htv, ?Hte; simpl; assumption);
    try (rewrite ?Htv, ?Hte; apply rect_take_rows; exact Hrd);
    try apply Hrd.
  rewrite Hd. simpl. rewrite !length_map. exact Hi.
Qed.

Definition header_line : string :=
  String.append
    "age,workclass,fnlwgt,education,education-num,marital-status,occupation,relationship,race,sex,capital-gain,capital-loss,hours-per-week,native-country,income"
    (String nl EmptyString).

(** The text and the data records of a split written by [to_csv]. *)
Definition split_text (part : DataFrame) : string :=
  String.append header_line (csv_text (map (map render) (values part))).

Lemma to_csv_split (part : DataFrame) :
  columns part = column_names -> to_csv part = split_text part.
Proof.
  intros H. unfold to_csv, to_csv_records, split_text.
  rewrite csv_text_cons, H. reflexivity.
Qed.

Lemma rendered_width (part : DataFrame) :
  columns part = column_names -> rect part ->
  Forall (fun record => List.length record = 15%nat) (map (map render) (values part)).
Proof.
  intros Hc [_ Hw]. rewrite Hc in Hw. rewrite Forall_map.
  eapply Forall_impl; [|exact Hw]. intros row Hrow. now rewrite length_map.
Qed.


(** The labels of the rows behind the two parts of the second split. *)
Definition train_ids (v : Vars) (ind_train : list nat) : list nat :=
  take ind_train (index (df_train_val v)).

Definition val_ids (v : Vars) (ind_val : list nat) : list nat :=
  take ind_val (index (df_train_val v)).


(** C3, as the code has it.  A run that reaches the training job has made
    its library calls in this order: read the CSV, split off the test
    set, write both splits, fit and apply the preprocessor, save it,
    split into training and validation sets, write and upload them, fit
    the model.  The first split cuts the cleaned frame as loaded;
    [data/test.csv] and [data/train.csv] hold the two parts as they were
    cut, missing values included.  The preprocessor is fitted on the
    training-and-validation rows without their target, that is after the
    first split and before the second; the array it yields, with the
    encoded target in front, is what the second split cuts, and the two
    parts of that split are the files written for training and
    validation. *)
Theorem pipeline_order (nb0 nb : Notebook) (v : Vars) :
  pipeline nb0 = Done v nb ->
  log nb = log nb0 ++ pipeline_log /\
  first_index is_split pipeline_log = Some 1%nat /\
  first_index is_fit_transform pipeline_log = Some 4%nat /\
  (exists d0 ind_train ind_test,
     read_csv "data/adult.csv" column_names = Return d0 /\
     df v = strip_object_columns (df_replace "?" d0) /\
     shuffle_split test_size_tenth (List.length (values (df v))) =
       Return (ind_train, ind_test) /\
     df_train_val v = take_rows ind_train (df v) /\
     df_test v = take_rows ind_test (df v)) /\
  lookup "data/train.csv" (files nb) = Some (to_csv (df_train_val v)) /\
  lookup "data/test.csv" (files nb) = Some (to_csv (df_test v)) /\
  drop "income" (df_train_val v) = Return (df_train_val_no_target v) /\
  (exists dtypes,
     drop "income" (df v) = Return dtypes /\
     preprocessor v = fit (numeric_ind dtypes) (cat_ind dtypes)
                          (df_train_val_no_target v)) /\
  (exists income,
     get_column "income" (df_train_val v) = Return income /\
     X v = insert_first (map (label_of income) income)
             (map (transform_row (preprocessor v)) (values (df_train_val_no_target v)))) /\
  (exists ind_train ind_val,
     shuffle_split test_size_fifth (List.length (X v)) = Return (ind_train, ind_val) /\
     X_train v = take ind_train (X v) /\ X_val v = take ind_val (X v)) /\
  lookup "data/train_transform.csv" (files nb) = Some (savetxt_text (X_train v)) /\
  lookup "data/val_transform.csv" (files nb) = Some (savetxt_text (X_val v)).
Proof.
  intros H. apply pipeline_Done in H.
  destruct H as (d0 & tr & te & income & tr2 & va & Hr & Hd & Hs & Htv & Hte & Hdrop &
                 Hpre & Hinc & HX & Hs2 & HXt & HXv & Hf & Hlog).
  split; [exact Hlog|]. split; [reflexivity|]. split; [reflexivity|].
  split; [exists d0, tr, te; repeat split; assumption|].
  rewrite Hf.
  generalize (to_csv (df_train_val v)) (to_csv (df_test v))
             (savetxt_text (X_val v)) (savetxt_text (X_train v))
             (pickle_dumps (preprocessor v)).
  intros t1 t2 t3 t4 t5.
  split; [reflexivity|]. split; [reflexivity|].
  split; [exact Hdrop|]. split; [exact Hpre|].
  split; [exists income; split; assumption|].
  split; [exists tr2, va; repeat split; assumption|].
  split; reflexivity.
Qed.

End Pipeline.

Arguments mkVars {Preprocessor}.
Arguments df {Preprocessor} v.
Arguments df_train_val {Preprocessor} v.
Arguments df_test {Preprocessor} v.
Arguments df_train_val_no_target {Preprocessor} v.
Arguments preprocessor {Preprocessor} v.
Arguments X {Preprocessor} v.
Arguments X_train {Preprocessor} v.
Arguments X_val {Preprocessor} v.
Arguments train_ids {Preprocessor} v ind_train.
Arguments val_ids {Preprocessor} v ind_val.

(** ** A small census, for running the cells

    Ten rows; row 8 has no work class ([?] in the raw file).  The shuffle
    is the one [RandomState(42)] makes of 10 and of 9 positions, the two
    sizes the run asks for; the stand-in preprocessor keeps the numbers
    and writes 0 for everything else. *)

Definition demo_row (i : nat) (names : list string) : list cell :=
  map (fun name =>
         if String.eqb name "age" then Int (20 + Z.of_nat i)
         else if String.eqb name "workclass"
              then Str (if Nat.eqb i 8 then "?" else " Private")
         else if String.eqb name "income"
              then Str (if Nat.even i then " <=50K" else " >50K")
         else Int 0) names.

Definition demo_read_csv (path : string) (names : list string) : result DataFrame :=
  Return (mkFrame names (seq 0 10) (map (fun i => demo_row i names) (seq 0 10))).

(** [np.random.RandomState(42).permutation(n)] for [n] = 10 and 9; the
    other sizes, which no run below asks for, are reversed. *)
Definition demo_permutation (n : nat) : list nat :=
  if Nat.eqb n 10 then [8; 1; 5; 0; 7; 2; 9; 4; 3; 6]%nat
  else if Nat.eqb n 9 then [7; 1; 5; 0; 8; 2; 4; 3; 6]%nat
  else rev (seq 0 n).

Definition demo_transform_row (pre : unit) (row : list cell) : list float :=
  map (fun c => match c with Int z => float_of_Z z | _ => PrimFloat.zero end) row.

Definition demo_label_of (income : list cell) (c : cell) : float :=
  match c with
  | Str s => if String.eqb s ">50K" then PrimFloat.one else PrimFloat.zero
  | _ => PrimFloat.zero
  end.

Definition demo_format_f (x : float) : string := str_of_Z (trunc x).

Definition demo_fit (numeric categorical : list nat) (d : DataFrame) : unit := tt.

Definition demo_pickle (pre : unit) : string := "pickle".

Definition demo_pipeline : NB (Vars unit) :=
  pipeline demo_read_csv demo_permutation unit demo_fit
           demo_transform_row demo_label_of demo_format_f demo_pickle.

Definition empty_notebook : Notebook := mkNotebook [] [] [].

Definition demo_run : outcome (Vars unit) := demo_pipeline empty_notebook.

Definition empty_frame : DataFrame := mkFrame [] [] [].

Definition vars_of (o : outcome (Vars unit)) : Vars unit :=
  match o with
  | Done v _ => v
  | Err _ _ => mkVars empty_frame empty_frame empty_frame empty_frame tt [] [] []
  end.

Definition notebook_of {A : Type} (o : outcome A) : Notebook :=
  match o with
  | Done _ nb | Err _ nb => nb
  end.

Definition completed {A : Type} (o : outcome A) : bool :=
  match o with
  | Done _ _ => true
  | Err _ _ => false
  end.

Definition demo_vars : Vars unit := vars_of demo_run.

Definition demo_notebook : Notebook := notebook_of demo_run.

Lemma demo_read_csv_frame (path : string) (names : list string) (d : DataFrame) :
  demo_read_csv path names = Return d ->
  columns d = names /\ rect d /\ index d = seq 0 (List.length (values d)).
Proof.
  unfold demo_read_csv. intros [= <-]. simpl. repeat split.
  repeat constructor; unfold demo_row; apply length_map.
Qed.

Lemma demo_permutation_range (n : nat) : Permutation (demo_permutation n) (seq 0 n).
Proof.
  unfold demo_permutation.
  destruct (Nat.eqb n 10) eqn:H10; [apply Nat.eqb_eq in H10; subst n|].
  - apply NoDup_Permutation_bis.
    + repeat (constructor; [simpl; intuition discriminate|]). constructor.
    + reflexivity.
    + intros x Hx. simpl in Hx. simpl. intuition.
  - destruct (Nat.eqb n 9) eqn:H9; [apply Nat.eqb_eq in H9; subst n|].
    + apply NoDup_Permutation_bis.
      * repeat (constructor; [simpl; intuition discriminate|]). constructor.
      * reflexivity.
      * intros x Hx. simpl in Hx. simpl. intuition.
    + apply Permutation_sym, Permutation_rev.
Qed.


(** C3 fails on the small census: the first split is the second library
    call of the run and the fit of the preprocessor the fifth; the test
    partition is row 8, cut from the cleaned frame and written with its
    work class missing before any preprocessor exists. *)
Lemma demo_split_precedes_fit :
  completed demo_run = true /\
  final_log demo_run = pipeline_log /\
  first_index is_split (final_log demo_run) = Some 1%nat /\
  first_index is_fit_transform (final_log demo_run) = Some 4%nat /\
  index (df_test demo_vars) = [8%nat] /\
  values (df_test demo_vars) =
    [[Int 28; NaN; Int 0; Int 0; Int 0; Int 0; Int 0; Int 0; Int 0; Int 0;
      Int 0; Int 0; Int 0; Int 0; Str "<=50K"]] /\
  lookup "data/test.csv" (files demo_notebook) =
    Some (String.append header_line
            (String.append "28,,0,0,0,0,0,0,0,0,0,0,0,0,<=50K" (String nl EmptyString))).
Proof. repeat split; vm_compute; reflexivity. Qed.

(** The run on the small census, against [pipeline_order]. *)
Lemma pipeline_order_witness :
  log demo_notebook = log empty_notebook ++ pipeline_log /\
  first_index is_split pipeline_log = Some 1%nat /\
  first_index is_fit_transform pipeline_log = Some 4%nat /\
  (exists d0 ind_train ind_test,
     demo_read_csv "data/adult.csv" column_names = Return d0 /\
     df demo_vars = strip_object_columns (df_replace "?" d0) /\
     shuffle_split demo_permutation test_size_tenth
                   (List.length (values (df demo_vars))) =
       Return (ind_train, ind_test) /\
     df_train_val demo_vars = take_rows ind_train (df demo_vars) /\
     df_test demo_vars = take_rows ind_test (df demo_vars)) /\
  lookup "data/train.csv" (files demo_notebook) = Some (to_csv (df_train_val demo_vars)) /\
  lookup "data/test.csv" (files demo_notebook) = Some (to_csv (df_test demo_vars)) /\
  drop "income" (df_train_val demo_vars) = Return (df_train_val_no_target demo_vars) /\
  (exists dtypes,
     drop "income" (df demo_vars) = Return dtypes /\
     preprocessor demo_vars =
       demo_fit (numeric_ind dtypes) (cat_ind dtypes) (df_train_val_no_target demo_vars)) /\
  (exists income,
     get_column "income" (df_train_val demo_vars) = Return income /\
     X demo_vars =
     insert_first (map (demo_label_of income) income)
       (map (demo_transform_row (preprocessor demo_vars))
            (values (df_train_val_no_target demo_vars)))) /\
  (exists ind_train ind_val,
     shuffle_split demo_permutation test_size_fifth (List.length (X demo_vars)) =
       Return (ind_train, ind_val) /\
     X_train demo_vars = take ind_train (X demo_vars) /\
     X_val demo_vars = take ind_val (X demo_vars)) /\
  lookup "data/train_transform.csv" (files demo_notebook) =
    Some (savetxt_text demo_format_f (X_train demo_vars)) /\
  lookup "data/val_transform.csv" (files demo_notebook) =
    Some (savetxt_text demo_format_f (X_val demo_vars)).
Proof.
  apply (pipeline_order demo_read_csv demo_permutation unit demo_fit
           demo_transform_row demo_label_of demo_format_f demo_pickle
           empty_notebook demo_notebook demo_vars).
  vm_compute. reflexivity.
Defined.


(** On the small census the test partition is row 8, the validation
    partition rows 3 and 5 and the training partition the other seven. *)
Example demo_partitions :
  index (df_test demo_vars) = [8%nat] /\
  index (df_train_val demo_vars) = [1; 5; 0; 7; 2; 9; 4; 3; 6]%nat /\
  train_ids demo_vars [5; 0; 8; 2; 4; 3; 6]%nat = [9; 1; 6; 0; 2; 7; 4]%nat /\
  val_ids demo_vars [7; 1]%nat = [3; 5]%nat.
Proof. repeat split; vm_compute; reflexivity. Qed.


(* --------------------------------------------------------------------- *)
(** ** More about the cells: cleaning, columns, files *)
(* --------------------------------------------------------------------- *)

(** The cleaning of the first cell: [?] becomes missing, then the blanks
    go from the object columns. *)
Definition clean (d : DataFrame) : DataFrame :=
  strip_object_columns (df_replace "?" d).

Lemma nth_error_numbered {A B : Type} (g : nat -> A -> B) (row : list A) :
  forall a j,
    nth_error (map (fun jc => g (fst jc) (snd jc))
                   (combine (seq a (List.length row)) row)) j =
    option_map (g (a + j)%nat) (nth_error row j).
Proof.
  induction row as [|c row IH]; intros a j; simpl.
  - destruct j; reflexivity.
  - destruct j as [|j]; simpl.
    + now rewrite Nat.add_0_r.
    + rewrite IH. now rewrite Nat.add_succ_r.
Qed.

Lemma nth_error_strip_row (object : list bool) (row : list cell) (j : nat) :
  nth_error (strip_row object row) j =
  option_map (fun c => if nth j object false then str_replace_cell c else c)
             (nth_error row j).
Proof.
  unfold strip_row.
  apply (nth_error_numbered
           (fun j c => if nth j object false then str_replace_cell c else c) row 0 j).
Qed.

Lemma nth_object_columns (d : DataFrame) (j : nat) :
  (j < List.length (columns d))%nat ->
  nth j (object_columns d) false =
  existsb (fun row => is_str (nth j row NaN)) (values d).
Proof.
  intros Hj. unfold object_columns.
  rewrite (nth_indep _ false
             (existsb (fun row => is_str (nth (List.length (columns d)) row NaN)) (values d)))
    by (now rewrite length_map, length_seq).
  rewrite (map_nth (fun j => existsb (fun row => is_str (nth j row NaN)) (values d))).
  rewrite seq_nth by exact Hj. reflexivity.
Qed.

Lemma mentions_remove_spaces (s : string) : mentions " "%char (remove_spaces s) = false.
Proof.
  induction s as [|c s IH]; [reflexivity|].
  cbn [remove_spaces]. destruct (Ascii.eqb c " "%char) eqn:E; [exact IH|].
  cbn [mentions]. rewrite Ascii.eqb_sym, E. exact IH.
Qed.

(** A text at place [j] of a row of a rectangular frame makes column [j]
    an object column. *)
Lemma text_makes_object (d : DataFrame) (row : list cell) (j : nat) (s : string) :
  rect d -> In row (values d) -> nth_error row j = Some (Str s) ->
  nth j (object_columns d) false = true.
Proof.
  intros [_ Hw] Hin Hj.
  assert (Hlt : (j < List.length (columns d))%nat).
  { rewrite Forall_forall in Hw. rewrite <- (Hw row Hin).
    apply nth_error_Some. congruence. }
  rewrite nth_object_columns by exact Hlt.
  apply existsb_exists. exists row. split; [exact Hin|].
  rewrite (nth_error_nth _ _ NaN Hj). reflexivity.
Qed.

Lemma rect_df_replace (old : string) (d : DataFrame) : rect d -> rect (df_replace old d).
Proof.
  intros [Hl Hw]. split; simpl.
  - now rewrite length_map.
  - rewrite Forall_map. eapply Forall_impl; [|exact Hw].
    intros row Hrow. now rewrite length_map.
Qed.

(** X10.  A text cell of the loaded frame becomes a missing value exactly
    when it is the one-character text [?]; every other text stays a text,
    with its blanks removed, so a [?] that comes with a blank stays in
    the data as the text [?]. *)
Theorem question_mark_exact (d : DataFrame) (i j : nat) (row : list cell) (s : string) :
  rect d ->
  nth_error (values d) i = Some row ->
  nth_error row j = Some (Str s) ->
  exists row',
    nth_error (values (clean d)) i = Some row' /\
    nth_error row' j = Some (if String.eqb s "?" then NaN else Str (remove_spaces s)).
Proof.
  intros Hrect Hi Hj.
  exists (strip_row (object_columns (df_replace "?" d)) (map (replace_cell "?") row)).
  split.
  - unfold clean, strip_object_columns, df_replace. simpl values.
    rewrite !nth_error_map, Hi. reflexivity.
  - rewrite nth_error_strip_row, nth_error_map, Hj. simpl.
    destruct (String.eqb s "?") eqn:E.
    + destruct (nth j (object_columns (df_replace "?" d)) false); reflexivity.
    + rewrite (text_makes_object (df_replace "?" d)
                 (map (replace_cell "?") row) j s).
      * reflexivity.
      * now apply rect_df_replace.
      * simpl. apply in_map. eapply nth_error_In; exact Hi.
      * rewrite nth_error_map, Hj. simpl. now rewrite E.
Qed.

(** X11.  After the cleaning no text cell of the frame holds a blank. *)
Theorem cleaned_text_has_no_blank (d : DataFrame) (row : list cell) (s : string) :
  rect d ->
  In row (values (clean d)) ->
  In (Str s) row ->
  mentions " "%char s = false.
Proof.
  intros Hrect Hrow Hs.
  unfold clean, strip_object_columns in Hrow. simpl in Hrow.
  apply in_map_iff in Hrow. destruct Hrow as (r1 & <- & Hr1).
  apply In_nth_error in Hs. destruct Hs as [j Hj].
  rewrite nth_error_strip_row in Hj.
  destruct (nth_error r1 j) as [c|] eqn:Ec; [|discriminate]. simpl in Hj.
  destruct (nth j (object_columns (df_replace "?" d)) false) eqn:Eo.
  - destruct c as [z|s0|]; simpl in Hj; try discriminate.
    injection Hj as <-. apply mentions_remove_spaces.
  - injection Hj as ->.
    rewrite (text_makes_object (df_replace "?" d) r1 j s) in Eo;
      [discriminate|now apply rect_df_replace|exact Hr1|exact Ec].
Qed.

Lemma map_fst_combine {A B : Type} (l : list A) (m : list B) :
  List.length l = List.length m -> map fst (combine l m) = l.
Proof.
  revert m. induction l as [|a l IH]; intros [|b m] H; simpl in *;
    try discriminate; [reflexivity|]. f_equal. apply IH. lia.
Qed.

Lemma partition_by_flag (l : list (nat * bool)) :
  Permutation (map fst (filter (fun jb => negb (snd jb)) l) ++
               map fst (filter (fun jb => snd jb) l))
              (map fst l).
Proof.
  induction l as [|[j b] l IH]; simpl; [constructor|].
  destruct b; simpl.
  - eapply Permutation_trans; [apply Permutation_sym, Permutation_middle|].
    now constructor.
  - now constructor.
Qed.

(** X12.  The numeric and the categorical column positions handed to the
    column transformer split the columns of the frame: every column is in
    exactly one of the two lists. *)
Theorem transformer_columns_partition (d : DataFrame) :
  Permutation (numeric_ind d ++ cat_ind d) (seq 0 (List.length (columns d))) /\
  NoDup (numeric_ind d ++ cat_ind d).
Proof.
  assert (H : Permutation (numeric_ind d ++ cat_ind d) (seq 0 (List.length (columns d)))).
  { unfold numeric_ind, cat_ind.
    eapply Permutation_trans; [apply partition_by_flag|].
    rewrite map_fst_combine; [apply Permutation_refl|].
    unfold object_columns. now rewrite length_map. }
  split; [exact H|].
  eapply Permutation_NoDup; [apply Permutation_sym; exact H|apply seq_NoDup].
Qed.

(** *** Files written by [to_csv], read by the replay worker *)

Lemma count_nl_append (a b : string) :
  count_nl (String.append a b) = (count_nl a + count_nl b)%nat.
Proof.
  induction a as [|c a IH]; simpl; [reflexivity|].
  destruct (Ascii.eqb c nl); simpl; now rewrite IH.
Qed.

Lemma count_nl_double_quotes (s : string) : count_nl (double_quotes s) = count_nl s.
Proof.
  induction s as [|c s IH]; simpl; [reflexivity|].
  destruct (Ascii.eqb c dq) eqn:E; simpl.
  - apply Ascii.eqb_eq in E. subst c. simpl. exact IH.
  - now rewrite IH.
Qed.

Lemma count_nl_csv_field (s : string) : count_nl (csv_field s) = count_nl s.
Proof.
  unfold csv_field.
  destruct (mentions ","%char s || mentions dq s || mentions nl s); [|reflexivity].
  simpl. rewrite count_nl_append, count_nl_double_quotes. simpl. lia.
Qed.

Lemma count_nl_join_fields (fields : list string) :
  Forall (fun f => count_nl f = 0%nat) fields ->
  count_nl (join "," (map csv_field fields)) = 0%nat.
Proof.
  induction 1 as [|f fields Hf _ IH]; [reflexivity|].
  destruct fields as [|g fields]; [simpl; now rewrite count_nl_csv_field|].
  change (join "," (map csv_field (f :: g :: fields)))
    with (String.append (csv_field f)
            (String.append "," (join "," (map csv_field (g :: fields))))).
  rewrite !count_nl_append, count_nl_csv_field, Hf, IH. reflexivity.
Qed.

Lemma count_nl_csv_text (records : list (list string)) :
  Forall (Forall (fun f => count_nl f = 0%nat)) records ->
  count_nl (csv_text records) = List.length records.
Proof.
  induction 1 as [|r records Hr _ IH]; [reflexivity|].
  rewrite csv_text_cons, count_nl_append, IH. unfold csv_line.
  rewrite count_nl_append, count_nl_join_fields by exact Hr. reflexivity.
Qed.

Lemma terminated_append (a b : string) :
  b <> EmptyString -> terminated (String.append a b) = terminated b.
Proof.
  intros Hb. induction a as [|c a IH]; [reflexivity|].
  change (String.append (String c a) b) with (String c (String.append a b)).
  assert (Hne : String.append a b <> EmptyString).
  { destruct a; simpl; [exact Hb|discriminate]. }
  destruct (String.append a b) eqn:E; [contradiction|]. exact IH.
Qed.

Lemma terminated_csv_text (records : list (list string)) :
  terminated (csv_text records) = true.
Proof.
  induction records as [|r records IH]; [reflexivity|].
  rewrite csv_text_cons.
  destruct (csv_text records) as [|c t] eqn:E.
  - assert (Hx : forall x, String.append x EmptyString = x).
    { induction x as [|d x IHx]; simpl; [reflexivity|now rewrite IHx]. }
    rewrite Hx. unfold csv_line. rewrite terminated_append by discriminate.
    reflexivity.
  - rewrite terminated_append by discriminate. exact IH.
Qed.

(** X13.  A file written by [to_csv(index=False)] from a frame whose
    names and cells hold no line break ends in a newline, and the replay
    worker's [count] on it is the number of rows of the frame. *)
Theorem to_csv_file_count (d : DataFrame) :
  Forall (fun name => count_nl name = 0%nat) (columns d) ->
  Forall (Forall (fun c => count_nl (render c) = 0%nat)) (values d) ->
  terminated (to_csv d) = true /\
  Replay.count_of (to_csv d) = Z.of_nat (List.length (values d)).
Proof.
  intros Hc Hv. split; [apply terminated_csv_text|].
  unfold Replay.count_of. rewrite Replay.length_split_nl.
  unfold to_csv, to_csv_records. rewrite count_nl_csv_text.
  - cbn [List.length]. rewrite length_map. lia.
  - constructor; [exact Hc|]. rewrite Forall_map.
    eapply Forall_impl; [|exact Hv]. intros row Hrow. now rewrite Forall_map.
Qed.

(** *** Selection by a permutation *)

Lemma take_seq_suffix {A : Type} (l2 : list A) :
  forall l1, take (seq (List.length l1) (List.length l2)) (l1 ++ l2) = l2.
Proof.
  induction l2 as [|x l2 IH]; intros l1; [reflexivity|].
  cbn [List.length seq].
  change (take (List.length l1 :: seq (S (List.length l1)) (List.length l2)) (l1 ++ x :: l2))
    with (match nth_error (l1 ++ x :: l2) (List.length l1) with
          | Some y => [y]
          | None => []
          end ++ take (seq (S (List.length l1)) (List.length l2)) (l1 ++ x :: l2)).
  rewrite nth_error_app2 by lia. rewrite Nat.sub_diag. simpl nth_error.
  replace (l1 ++ x :: l2) with ((l1 ++ [x]) ++ l2) by (now rewrite <- app_assoc).
  replace (S (List.length l1)) with (List.length (l1 ++ [x]))
    by (rewrite length_app; simpl; lia).
  rewrite IH. reflexivity.
Qed.

Lemma take_permutation {A : Type} (p : list nat) (l : list A) :
  Permutation p (seq 0 (List.length l)) -> Permutation (take p l) l.
Proof.
  intros H. unfold take.
  eapply Permutation_trans; [apply Permutation_flat_map; exact H|].
  pose proof (take_seq_suffix l []) as E. simpl in E. unfold take in E.
  rewrite E. apply Permutation_refl.
Qed.

Lemma length_take_in_range {A : Type} (positions : list nat) (l : list A) :
  Forall (fun i => (i < List.length l)%nat) positions ->
  List.length (take positions l) = List.length positions.
Proof.
  induction 1 as [|i positions Hi _ IH]; [reflexivity|].
  change (take (i :: positions) l)
    with (match nth_error l i with Some x => [x] | None => [] end ++ take positions l).
  rewrite length_app, IH.
  destruct (nth_error l i) eqn:E; [reflexivity|].
  apply nth_error_None in E. lia.
Qed.

Lemma in_firstn {A : Type} (n : nat) (l : list A) (x : A) :
  In x (firstn n l) -> In x l.
Proof.
  intros H. rewrite <- (firstn_skipn n l). apply in_or_app. now left.
Qed.

Lemma in_skipn {A : Type} (n : nat) (l : list A) (x : A) :
  In x (skipn n l) -> In x l.
Proof.
  intros H. rewrite <- (firstn_skipn n l). apply in_or_app. now right.
Qed.

Lemma remove_nth_last {A : Type} (l : list A) :
  remove_nth (Nat.pred (List.length l)) l = removelast l.
Proof.
  induction l as [|x l IH]; [reflexivity|].
  destruct l as [|y l]; [reflexivity|].
  change (Nat.pred (List.length (x :: y :: l))) with (S (Nat.pred (List.length (y :: l)))).
  cbn [remove_nth]. rewrite IH. reflexivity.
Qed.

Lemma skipn_insert_first (y : list float) (X0 : list (list float)) :
  List.length y = List.length X0 ->
  map (skipn 1) (insert_first y X0) = X0.
Proof.
  unfold insert_first. revert X0.
  induction y as [|a y IH]; intros [|row X0] H; simpl in *; try discriminate;
    [reflexivity|]. f_equal. apply IH. lia.
Qed.

Section PipelineFacts.

Variable read_csv : string -> list string -> result DataFrame.
Variable permutation : nat -> list nat.
Variable Preprocessor : Type.
Variable fit : list nat -> list nat -> DataFrame -> Preprocessor.
Variable transform_row : Preprocessor -> list cell -> list float.
Variable label_of : list cell -> cell -> float.
Variable format_f : float -> string.
Variable pickle_dumps : Preprocessor -> string.

(** How pandas writes a number of the array in [to_csv]. *)
Variable format_float : float -> string.

Hypothesis read_csv_frame : forall path names d,
  read_csv path names = Return d ->
  columns d = names /\ rect d /\ index d = seq 0 (List.length (values d)).

Hypothesis permutation_range : forall n, Permutation (permutation n) (seq 0 n).

Local Abbreviation run :=
  (pipeline read_csv permutation Preprocessor fit transform_row label_of
            format_f pickle_dumps).
Local Abbreviation split := (shuffle_split permutation).

(** The size of the test part of a split of [n] samples. *)
Definition n_test (test_size : float) (n : nat) : Z :=
  ceil (PrimFloat.mul test_size (float_of_Z (Z.of_nat n))).

(** [X[:2, 1:]]: the first two rows without their first column. *)
Definition infer_data (X : list (list float)) : list (list float) :=
  map (skipn 1) (firstn 2 X).

(** The records of [pd.DataFrame(a).to_csv(path)]: a header of column
    numbers behind an empty corner field, then every row behind its row
    number. *)
Definition array_csv_records (a : list (list float)) : list (list string) :=
  let width := match a with
               | [] => O
               | row :: _ => List.length row
               end in
  (EmptyString :: map (fun j => str_of_Z (Z.of_nat j)) (seq 0 width)) ::
  map (fun ir => str_of_Z (Z.of_nat (fst ir)) :: map format_float (snd ir))
      (combine (seq 0 (List.length a)) a).

(** The cell that writes [test_endpoint.csv]. *)
Definition test_endpoint (X : list (list float)) : NB (list (list float)) :=
  let infer := infer_data X in
  bind (write_file (ToCsv "test_endpoint.csv") "test_endpoint.csv"
                   (csv_text (array_csv_records infer)))
       (fun _ => ret infer).

Lemma shuffle_split_cover (test_size : float) (n : nat) (ind_train ind_test : list nat) :
  split test_size n = Return (ind_train, ind_test) ->
  0 <= n_test test_size n <= Z.of_nat n ->
  ind_test ++ ind_train = permutation n /\
  List.length ind_test = Z.to_nat (n_test test_size n).
Proof.
  unfold shuffle_split, n_test. intros H Hb.
  destruct (Z.of_nat n - ceil (PrimFloat.mul test_size (float_of_Z (Z.of_nat n))) =? 0);
    [discriminate|].
  injection H as <- <-.
  set (c := ceil (PrimFloat.mul test_size (float_of_Z (Z.of_nat n)))) in *.
  assert (Hlen : List.length (permutation n) = n).
  { rewrite (Permutation_length (permutation_range n)). apply length_seq. }
  split.
  - rewrite (firstn_all2 (n := Z.to_nat (Z.of_nat n - c))).
    + apply firstn_skipn.
    + rewrite length_skipn, Hlen. lia.
  - rewrite length_firstn, Hlen. lia.
Qed.

Lemma shuffle_split_in_range (test_size : float) (n : nat) (ind_train ind_test : list nat) :
  split test_size n = Return (ind_train, ind_test) ->
  Forall (fun i => (i < n)%nat) (ind_test ++ ind_train).
Proof.
  unfold shuffle_split. intros H.
  destruct (Z.of_nat n - ceil (PrimFloat.mul test_size (float_of_Z (Z.of_nat n))) =? 0);
    [discriminate|].
  injection H as <- <-.
  assert (Hp : Forall (fun i => (i < n)%nat) (permutation n)).
  { apply Forall_forall. intros i Hi.
    apply (Permutation_in _ (permutation_range n)) in Hi. apply in_seq in Hi. lia. }
  rewrite Forall_forall in *. intros i Hi. apply Hp.
  apply in_app_or in Hi. destruct Hi as [Hi|Hi].
  - eapply in_firstn; exact Hi.
  - apply in_firstn in Hi. eapply in_skipn; exact Hi.
Qed.

Lemma length_X (nb0 nb : Notebook) (v : Vars Preprocessor) :
  run nb0 = Done v nb ->
  List.length (X v) = List.length (index (df_train_val v)) /\
  List.length (X v) = List.length (values (df_train_val_no_target v)) /\
  map (skipn 1) (X v) =
    map (transform_row (preprocessor v)) (values (df_train_val_no_target v)).
Proof.
  intros H.
  destruct (columns_of_run read_csv permutation Preprocessor fit transform_row
              label_of format_f pickle_dumps read_csv_frame _ _ _ H)
    as (_ & _ & _ & _ & Hrtv & _ & _).
  apply pipeline_Done in H.
  destruct H as (d0 & tr & te & income & tr2 & va & _ & _ & _ & _ & _ & Hdrop &
                 _ & Hinc & HX & _).
  unfold get_column in Hinc. unfold drop in Hdrop.
  destruct (position "income" (columns (df_train_val v))) as [j|]; [|discriminate].
  injection Hinc as <-. injection Hdrop as Hnt.
  assert (Hl : List.length (values (df_train_val_no_target v)) =
               List.length (values (df_train_val v))).
  { rewrite <- Hnt. simpl. apply length_map. }
  assert (Hy : List.length
                 (map (label_of (map (fun row => nth j row NaN) (values (df_train_val v))))
                      (map (fun row => nth j row NaN) (values (df_train_val v)))) =
               List.length (map (transform_row (preprocessor v))
                                (values (df_train_val_no_target v)))).
  { rewrite !length_map. now rewrite Hl. }
  repeat split.
  - rewrite HX. unfold insert_first.
    rewrite length_map, length_combine, Hy, Nat.min_id, length_map, Hl.
    symmetry. apply Hrtv.
  - rewrite HX. unfold insert_first.
    rewrite length_map, length_combine, Hy, Nat.min_id, length_map. reflexivity.
  - rewrite HX. apply skipn_insert_first. exact Hy.
Qed.

(** X14.  The frame the preprocessor is fitted on and applied to has the
    fourteen feature columns and no [income] column: each of its rows is
    the training-and-validation row without its last cell. *)
Theorem target_never_a_feature (nb0 nb : Notebook) (v : Vars Preprocessor) :
  run nb0 = Done v nb ->
  columns (df_train_val_no_target v) = removelast column_names /\
  ~ In "income" (columns (df_train_val_no_target v)) /\
  values (df_train_val_no_target v) = map (@removelast cell) (values (df_train_val v)) /\
  Forall (fun row => List.length row = 14%nat) (values (df_train_val_no_target v)).
Proof.
  intros H.
  destruct (columns_of_run read_csv permutation Preprocessor fit transform_row
              label_of format_f pickle_dumps read_csv_frame _ _ _ H)
    as (_ & _ & _ & Hctv & [_ Hw] & _ & _).
  apply pipeline_Done in H.
  destruct H as (d0 & tr & te & income & tr2 & va & _ & _ & _ & _ & _ & Hdrop & _).
  unfold drop in Hdrop. rewrite Hctv in Hdrop, Hw.
  change (position "income" column_names) with (Some 14%nat) in Hdrop.
  injection Hdrop as Hnt. rewrite <- Hnt. simpl columns. simpl values.
  assert (Hrows : map (remove_nth 14) (values (df_train_val v)) =
                  map (@removelast cell) (values (df_train_val v))).
  { apply map_ext_in. intros row Hrow. rewrite Forall_forall in Hw.
    pose proof (remove_nth_last row) as Q. rewrite (Hw row Hrow) in Q.
    exact Q. }
  split; [reflexivity|]. split.
  - intros Hin. simpl in Hin.
    repeat (destruct Hin as [Hin|Hin]; [discriminate|]). exact Hin.
  - split; [exact Hrows|].
    rewrite Forall_map. eapply Forall_impl; [|exact Hw].
    intros row Hrow. simpl in Hrow.
    do 15 (destruct row as [|? row]; [discriminate|]).
    destruct row; [reflexivity|discriminate].
Qed.


(** X16.  On a CSV of fewer than two records the first split refuses the
    data: the run ends with a [ValueError] right after the split is
    called, and no file has been written. *)
Theorem tiny_dataset_refused (nb0 : Notebook) (d0 : DataFrame) :
  read_csv "data/adult.csv" column_names = Return d0 ->
  (List.length (values d0) <= 1)%nat ->
  run nb0 =
  Err (ValueError "the resulting train set will be empty")
      (mkNotebook (files nb0) (bucket nb0)
                  (log nb0 ++ [ReadCsv "data/adult.csv"; TrainTestSplit test_size_tenth])).
Proof.
  intros Hr Hn.
  assert (E0 : split test_size_tenth 0 =
               Raise (ValueError "the resulting train set will be empty"))
    by (vm_compute; reflexivity).
  assert (E1 : split test_size_tenth 1 =
               Raise (ValueError "the resulting train set will be empty"))
    by (vm_compute; reflexivity).
  unfold pipeline, load_and_split, bind, call, logged, lift. rewrite Hr. simpl.
  unfold train_test_split_df. simpl. rewrite !length_map.
  destruct (values d0) as [|r0 [|r1 rest]]; simpl in Hn; [| |lia].
  - simpl List.length. rewrite E0. simpl. rewrite <- app_assoc. reflexivity.
  - simpl List.length. rewrite E1. simpl. rewrite <- app_assoc. reflexivity.
Qed.

(** X17.  The array written to [test_endpoint.csv] is the preprocessor's
    output for the first two training-and-validation rows: the label
    column put in front for the training job is taken off again. *)
Theorem infer_data_is_features (nb0 nb : Notebook) (v : Vars Preprocessor) :
  run nb0 = Done v nb ->
  exists nb',
    test_endpoint (X v) nb =
      Done (map (transform_row (preprocessor v))
                (firstn 2 (values (df_train_val_no_target v)))) nb' /\
    lookup "test_endpoint.csv" (files nb') =
      Some (csv_text (array_csv_records
              (map (transform_row (preprocessor v))
                   (firstn 2 (values (df_train_val_no_target v)))))).
Proof.
  intros H. destruct (length_X _ _ _ H) as (_ & _ & Hsk).
  assert (E : infer_data (X v) =
              map (transform_row (preprocessor v))
                  (firstn 2 (values (df_train_val_no_target v)))).
  { unfold infer_data. rewrite <- firstn_map, Hsk, firstn_map. reflexivity. }
  unfold test_endpoint, bind, write_file, logged, ret. cbv zeta. rewrite E.
  eexists. split; reflexivity.
Qed.

Lemma upload_file_bucket (key path : string) (nb nb' : Notebook) (u : unit) :
  upload_file key path nb = Done u nb' ->
  exists text, lookup path (files nb) = Some text /\
               bucket nb' = (key, text) :: bucket nb /\ files nb' = files nb.
Proof.
  unfold upload_file, bind, logged. simpl.
  destruct (lookup path (files nb)) as [text|]; [|discriminate].
  intros [= _ <-]. exists text. repeat split.
Qed.

(** X18.  After a completed run the bucket holds, under [train/train.csv]
    and [validation/validation.csv] below the prefix, exactly the texts
    of the local files [train_transform.csv] and [val_transform.csv],
    which are the training and the validation array as [savetxt] writes
    them. *)
Theorem uploads_are_the_written_arrays (nb0 nb : Notebook) (v : Vars Preprocessor) :
  run nb0 = Done v nb ->
  lookup (String.append prefix "/train/train.csv") (bucket nb) =
    Some (savetxt_text format_f (X_train v)) /\
  lookup (String.append prefix "/validation/validation.csv") (bucket nb) =
    Some (savetxt_text format_f (X_val v)) /\
  lookup "data/train_transform.csv" (files nb) =
    lookup (String.append prefix "/train/train.csv") (bucket nb) /\
  lookup "data/val_transform.csv" (files nb) =
    lookup (String.append prefix "/validation/validation.csv") (bucket nb).
Proof.
  intros H.
  assert (Hf := H). apply pipeline_Done in Hf.
  destruct Hf as (d0 & tr & te & income & tr2 & va & _ & _ & _ & _ & _ & _ &
                  _ & _ & _ & _ & HXt & HXv & Hfiles & _).
  unfold pipeline in H.
  apply bind_Done in H. destruct H as ([[[d tv] tst] nt] & nb1 & _ & H).
  apply bind_Done in H. destruct H as ([pre X0] & nb2 & _ & H).
  apply bind_Done in H. destruct H as ([Xt Xv] & nb3 & H3 & H).
  apply bind_Done in H. destruct H as (u & nb4 & H4 & H).
  unfold logged in H4. injection H4 as _ <-.
  unfold ret in H. injection H as Hv Hnb.
  assert (EXt : Xt = X_train v) by (rewrite <- Hv; reflexivity).
  assert (EXv : Xv = X_val v) by (rewrite <- Hv; reflexivity).
  assert (Hb : bucket nb = bucket nb3) by (rewrite <- Hnb; reflexivity).
  unfold train_val_split in H3.
  apply bind_Done in H3. destruct H3 as (parts & nb5 & H5 & H3).
  apply call_Done in H5. destruct H5 as [Hs ->].
  apply bind_Done in H3. destruct H3 as (u1 & nb6 & H6 & H3).
  apply write_file_Done in H6. subst nb6.
  apply bind_Done in H3. destruct H3 as (u2 & nb7 & H7 & H3).
  apply write_file_Done in H7. subst nb7.
  apply bind_Done in H3. destruct H3 as (u3 & nb8 & H8 & H3).
  apply upload_file_bucket in H8. destruct H8 as (t1 & Hl1 & Hb1 & Hf1).
  apply bind_Done in H3. destruct H3 as (u4 & nb9 & H9 & H3).
  apply upload_file_bucket in H9. destruct H9 as (t2 & Hl2 & Hb2 & Hf2).
  unfold ret in H3. injection H3 as HXt' HXv' <-.
  rewrite Hf1 in Hl2. simpl in Hl1, Hl2.
  injection Hl1 as <-. injection Hl2 as <-.
  rewrite Hb, Hb2, Hb1, Hfiles.
  rewrite HXt', HXv', EXt, EXv.
  generalize (savetxt_text format_f (X_train v)) (savetxt_text format_f (X_val v))
             (bucket nb0) (files nb0).
  intros a b bk fl. repeat split; reflexivity.
Qed.

End PipelineFacts.

(** *** The small census again *)

Definition demo_frame : DataFrame :=
  mkFrame column_names (seq 0 10) (map (fun i => demo_row i column_names) (seq 0 10)).

Lemma demo_frame_rect : rect demo_frame.
Proof. apply (demo_read_csv_frame "data/adult.csv" column_names). reflexivity. Qed.

(** A census of a single record. *)
Definition one_row_read_csv (path : string) (names : list string) : result DataFrame :=
  Return (mkFrame names [0%nat] [demo_row 0 names]).

(** The sizes the model gives for the 32561 records of the census file
    agree with the shape the notebook prints for [X_train]: 3257 test
    rows, then 5861 validation rows out of 29304, leaving 23443. *)
Example census_partition_sizes :
  n_test test_size_tenth (Z.to_nat 32561) = 3257 /\
  n_test test_size_fifth (Z.to_nat 29304) = 5861 /\
  29304 - 5861 = 23443.
Proof. repeat split; vm_compute; reflexivity. Qed.

(** Row 0 of the small census: [ Private] loses its blank. *)
Lemma question_mark_exact_witness :
  exists row',
    nth_error (values (clean demo_frame)) 0 = Some row' /\
    nth_error row' 1 =
      Some (if String.eqb " Private" "?" then NaN else Str (remove_spaces " Private")).
Proof.
  apply (question_mark_exact demo_frame 0 1 (demo_row 0 column_names) " Private").
  - exact demo_frame_rect.
  - reflexivity.
  - reflexivity.
Defined.

(** A [?] behind a blank stays in the data as the text [?]; the bare [?]
    of row 8 of the small census becomes missing. *)
Example blank_question_mark_survives :
  values (clean (mkFrame ["workclass"] [0%nat] [[Str " ?"]])) = [[Str "?"]] /\
  option_map (fun row => nth 1 row (Int 0)) (nth_error (values (clean demo_frame)) 8) =
    Some NaN.
Proof. split; vm_compute; reflexivity. Qed.

Lemma cleaned_text_has_no_blank_witness : mentions " "%char "Private" = false.
Proof.
  apply (cleaned_text_has_no_blank demo_frame
           (strip_row (object_columns (df_replace "?" demo_frame))
                      (map (replace_cell "?") (demo_row 0 column_names)))
           "Private").
  - exact demo_frame_rect.
  - vm_compute. left. reflexivity.
  - vm_compute. right. left. reflexivity.
Defined.

Lemma to_csv_file_count_witness :
  terminated (to_csv (df_test demo_vars)) = true /\
  Replay.count_of (to_csv (df_test demo_vars)) =
    Z.of_nat (List.length (values (df_test demo_vars))).
Proof.
  apply (to_csv_file_count (df_test demo_vars)).
  - vm_compute. repeat constructor.
  - vm_compute. repeat constructor.
Defined.

Lemma target_never_a_feature_witness :
  columns (df_train_val_no_target demo_vars) = removelast column_names /\
  ~ In "income" (columns (df_train_val_no_target demo_vars)) /\
  values (df_train_val_no_target demo_vars) =
    map (@removelast cell) (values (df_train_val demo_vars)) /\
  Forall (fun row => List.length row = 14%nat) (values (df_train_val_no_target demo_vars)).
Proof.
  apply (target_never_a_feature demo_read_csv demo_permutation unit demo_fit
           demo_transform_row demo_label_of demo_format_f demo_pickle
           demo_read_csv_frame empty_notebook demo_notebook demo_vars).
  vm_compute. reflexivity.
Defined.


Lemma tiny_dataset_refused_witness :
  pipeline one_row_read_csv demo_permutation unit demo_fit
           demo_transform_row demo_label_of demo_format_f demo_pickle empty_notebook =
  Err (ValueError "the resulting train set will be empty")
      (mkNotebook (files empty_notebook) (bucket empty_notebook)
         (log empty_notebook ++
          [ReadCsv "data/adult.csv"; TrainTestSplit test_size_tenth])).
Proof.
  apply (tiny_dataset_refused one_row_read_csv demo_permutation unit demo_fit
           demo_transform_row demo_label_of demo_format_f demo_pickle
           empty_notebook (mkFrame column_names [0%nat] [demo_row 0 column_names])).
  - reflexivity.
  - simpl. lia.
Defined.

Lemma infer_data_is_features_witness :
  exists nb',
    test_endpoint demo_format_f (X demo_vars) demo_notebook =
      Done (map (demo_transform_row (preprocessor demo_vars))
                (firstn 2 (values (df_train_val_no_target demo_vars)))) nb' /\
    lookup "test_endpoint.csv" (files nb') =
      Some (csv_text (array_csv_records demo_format_f
              (map (demo_transform_row (preprocessor demo_vars))
                   (firstn 2 (values (df_train_val_no_target demo_vars)))))).
Proof.
  apply (infer_data_is_features demo_read_csv demo_permutation unit demo_fit
           demo_transform_row demo_label_of demo_format_f demo_pickle demo_format_f
           demo_read_csv_frame empty_notebook demo_notebook demo_vars).
  vm_compute. reflexivity.
Defined.

Lemma uploads_are_the_written_arrays_witness :
  lookup (String.append prefix "/train/train.csv") (bucket demo_notebook) =
    Some (savetxt_text demo_format_f (X_train demo_vars)) /\
  lookup (String.append prefix "/validation/validation.csv") (bucket demo_notebook) =
    Some (savetxt_text demo_format_f (X_val demo_vars)) /\
  lookup "data/train_transform.csv" (files demo_notebook) =
    lookup (String.append prefix "/train/train.csv") (bucket demo_notebook) /\
  lookup "data/val_transform.csv" (files demo_notebook) =
    lookup (String.append prefix "/validation/validation.csv") (bucket demo_notebook).
Proof.
  apply (uploads_are_the_written_arrays demo_read_csv demo_permutation unit demo_fit
           demo_transform_row demo_label_of demo_format_f demo_pickle
           empty_notebook demo_notebook demo_vars).
  vm_compute. reflexivity.
Defined.

End Training.
